(** * The WebRTC HTTP server of mediamtx (internal/core/webrtc_http_server.go)

    A shallow embedding of the WHIP/WHEP request handler: the two URL
    patterns, [relativeLocation], [checkAuthOutsideSession], the five
    method handlers, [onPage] and the dispatcher [onRequest].

    The handler mutates a gin context (response headers, status, body,
    the request URL) and calls into the path manager and its parent, the
    WebRTC manager.  The embedding threads a context record through a
    small state monad whose second outcome is a Go run-time panic. *)

From stdpp Require Import base option list strings gmap fin_maps.
From Stdlib Require Import ZArith Ascii String Lia.

Open Scope string_scope.
Open Scope Z_scope.

(** ** Go strings

    A Go string is a sequence of bytes; so is a Rocq [string]. *)

Module GoString.

(** The line feed, the one byte the regexp dot refuses. *)
Definition LF : ascii := "010"%char.

(** The double quote. *)
Definition DQUOTE : ascii := "034"%char.

(** [len(s)] as a Go int. *)
Definition len (s : string) : Z := Z.of_nat (String.length s).

Fixpoint noLF (s : string) : bool :=
  match s with
  | EmptyString => true
  | String c s' => negb (Ascii.eqb c LF) && noLF s'
  end.

(** No byte of [s] is a slash: [s] is a single path segment. *)
Fixpoint noSlash (s : string) : bool :=
  match s with
  | EmptyString => true
  | String c s' => negb (Ascii.eqb c "/") && noSlash s'
  end.

(** [strings.HasPrefix] that also hands back the remainder. *)
Fixpoint stripPrefix (p s : string) : option string :=
  match p, s with
  | EmptyString, _ => Some s
  | String a p', String b s' =>
      if Ascii.eqb a b then stripPrefix p' s' else None
  | String _ _, EmptyString => None
  end.

(** [s[lo:hi]]: Go panics unless [0 <= lo <= hi <= len(s)]. *)
Definition slice (s : string) (lo hi : Z) : option string :=
  if (0 <=? lo) && (lo <=? hi) && (hi <=? len s)
  then Some (String.substring (Z.to_nat lo) (Z.to_nat (hi - lo)) s)
  else None.

(** [s[i]]: Go panics unless [0 <= i < len(s)]. *)
Definition index (s : string) (i : Z) : option ascii :=
  if (0 <=? i) then String.get (Z.to_nat i) s else None.

(** [strings.HasSuffix]:
    [len(s) >= len(suffix) && s[len(s)-len(suffix):] == suffix]. *)
Definition HasSuffix (s suffix : string) : bool :=
  (len suffix <=? len s)
  && match slice s (len s - len suffix) (len s) with
     | Some t => String.eqb t suffix
     | None => false
     end.

End GoString.

Import GoString.

(** ** The two URL patterns

    [regexp.MustCompile] of Go gives leftmost-first matching: a lazy
    [.+?] offers its shortest expansion first and grows only when what
    follows fails.  Both patterns are anchored with [^] and [$], the dot
    refuses only the line feed, and every literal of the patterns is
    ASCII, so matching byte by byte agrees with matching rune by rune. *)

Module Pattern.

(** [(.+?)] followed by the rest of the pattern, [k], which receives
    the text captured so far and the input that is left. *)
Fixpoint dotPlusLazy {A : Type} (k : string -> string -> option A)
         (acc s : string) : option A :=
  match s with
  | EmptyString => None
  | String c s' =>
      if Ascii.eqb c LF then None
      else
        let acc' := acc +:+ String c EmptyString in
        match k acc' s' with
        | Some r => Some r
        | None => dotPlusLazy k acc' s'
        end
  end.

(** [(whip|whep)]: the captured word and the input after it. *)
Definition whipOrWhep (s : string) : option (string * string) :=
  match stripPrefix "whip" s with
  | Some r => Some ("whip", r)
  | None =>
      match stripPrefix "whep" s with
      | Some r => Some ("whep", r)
      | None => None
      end
  end.

(** [$] *)
Definition atEnd (s : string) : bool :=
  match s with EmptyString => true | _ => false end.

(** [/(whip|whep)$] after the first group. *)
Definition tailNoID (m1 rest : string) : option (string * string) :=
  match stripPrefix "/" rest with
  | Some r =>
      match whipOrWhep r with
      | Some (m2, e) => if atEnd e then Some (m1, m2) else None
      | None => None
      end
  | None => None
  end.

(** [/(whip|whep)/(.+?)$] after the first group. *)
Definition tailWithID (m1 rest : string) : option (string * string * string) :=
  match stripPrefix "/" rest with
  | Some r =>
      match whipOrWhep r with
      | Some (m2, r2) =>
          match stripPrefix "/" r2 with
          | Some r3 =>
              dotPlusLazy
                (fun m3 e => if atEnd e then Some (m1, m2, m3) else None)
                EmptyString r3
          | None => None
          end
      | None => None
      end
  | None => None
  end.

End Pattern.

(** [reWHIPWHEPNoID = regexp.MustCompile("^/(.+?)/(whip|whep)$")];
    the result of [FindStringSubmatch] without element 0: [None] is the
    nil slice, [Some (m1, m2)] are the two groups. *)
Definition reWHIPWHEPNoID (s : string) : option (string * string) :=
  match stripPrefix "/" s with
  | Some s1 => Pattern.dotPlusLazy Pattern.tailNoID EmptyString s1
  | None => None
  end.

(** [reWHIPWHEPWithID = regexp.MustCompile("^/(.+?)/(whip|whep)/(.+?)$")] *)
Definition reWHIPWHEPWithID (s : string) : option (string * string * string) :=
  match stripPrefix "/" s with
  | Some s1 => Pattern.dotPlusLazy Pattern.tailWithID EmptyString s1
  | None => None
  end.


(** ** Data model *)

(** [time.Duration] counts nanoseconds. *)
Definition Second : Z := 1000000000.

(** [net/http] status codes and methods used by the server. *)
Module http.
Definition StatusOK : Z := 200.
Definition StatusCreated : Z := 201.
Definition StatusNoContent : Z := 204.
Definition StatusMovedPermanently : Z := 301.
Definition StatusBadRequest : Z := 400.
Definition StatusUnauthorized : Z := 401.
Definition StatusNotFound : Z := 404.
Definition StatusMethodNotAllowed : Z := 405.
Definition StatusInternalServerError : Z := 500.

Definition MethodGet := "GET".
Definition MethodHead := "HEAD".
Definition MethodPost := "POST".
Definition MethodPut := "PUT".
Definition MethodPatch := "PATCH".
Definition MethodDelete := "DELETE".
Definition MethodOptions := "OPTIONS".

(** [http.Header] is [map[string][]string]. *)
Abbreviation Header := (gmap string (list string)).

(** [Header.Get]: the first value stored under the key, or the empty
    string.  Every key the server passes is written in canonical form
    already, the form under which [net/http] stores request headers. *)
Definition Get (h : Header) (key : string) : string :=
  match h !! key with
  | Some (v :: _) => v
  | _ => ""
  end.

(** [Header.Set]: the key now holds exactly this one value.  Keys are
    kept as the server writes them; no two keys it uses differ only in
    letter case. *)
Definition Set_ (h : Header) (key value : string) : Header :=
  <[key := [value]]> h.

(** [h[key] = values] *)
Definition Assign (h : Header) (key : string) (values : list string) : Header :=
  <[key := values]> h.
End http.

Arguments http.Set_ : simpl never.
Arguments http.Assign : simpl never.

(** [url.URL], the two fields the server reads. *)
Record URL := mkURL { Path : string; RawQuery : string }.

(** [http.Request] as the handler sees it through gin. *)
Record Request := mkRequest {
  Method : string;
  ReqURL : URL;
  ReqHeader : http.Header;
  (** what [io.ReadAll(ctx.Request.Body)] yields: the bytes, or [None]
      when the read fails *)
  Body : option string;
  RemoteAddr : string;
  (** the address [ctx.ClientIP()] resolves for this request *)
  ClientIP : string
}.

(** Go's [error] values, told apart the way the server does it: by a
    type assertion to [errAuthentication]. *)
Inductive error :=
| errAuthentication (message : string)
| errOther (text : string).

(** [uuid.UUID] is [[16]byte]. *)
Record UUID := mkUUID { uuidBytes : list Byte.byte }.

(** [pwebrtc.ICEServer] *)
Record ICEServer := mkICEServer {
  URLs : list string;
  Username : string;
  Credential : string
}.

(** [pwebrtc.ICECandidateInit] *)
Record ICECandidateInit := mkICECandidateInit {
  Candidate : string;
  SDPMid : option string;
  SDPMLineIndex : option Z;
  UsernameFragment : option string
}.

(** The protocol tag of an access request; this server only ever builds
    the WebRTC one. *)
Inductive authProtocol := authProtocolWebRTC.

Record pathAccessRequest := mkPathAccessRequest {
  ar_name : string;
  ar_query : string;
  ar_publish : bool;
  ar_ip : option string;      (* [net.ParseIP(ip)], nil when it does not parse *)
  ar_user : string;
  ar_pass : string;
  ar_proto : authProtocol
}.

Record pathGetConfForPathReq := mkPathGetConfForPathReq {
  accessRequest : pathAccessRequest
}.

Record pathGetConfForPathRes := mkPathGetConfForPathRes {
  cr_err : option error
}.

(** The part of [webRTCSession] the HTTP server reads. *)
Record webRTCSession := mkWebRTCSession {
  sx_uuid : UUID;
  sx_secret : UUID
}.

Record webRTCNewSessionReq := mkWebRTCNewSessionReq {
  ns_pathName : string;
  ns_remoteAddr : string;
  ns_query : string;
  ns_user : string;
  ns_pass : string;
  ns_offer : string;
  ns_publish : bool
}.

Record webRTCNewSessionRes := mkWebRTCNewSessionRes {
  nr_sx : option webRTCSession;      (* a pointer: [None] is nil *)
  nr_answer : string;
  nr_err : option error;
  nr_errStatusCode : Z
}.

Record webRTCAddSessionCandidatesReq := mkWebRTCAddSessionCandidatesReq {
  ac_secret : UUID;
  ac_candidates : list ICECandidateInit
}.

Record webRTCAddSessionCandidatesRes := mkWebRTCAddSessionCandidatesRes {
  acr_sx : option webRTCSession;
  acr_err : option error
}.

Record webRTCDeleteSessionReq := mkWebRTCDeleteSessionReq {
  ds_secret : UUID
}.

(** [logger.Level] *)
Module logger.
Inductive Level := Debug | Info | Warn | Error.
End logger.

(** What the handler does to the rest of the server, in order. *)
Inductive Event :=
| EvGetConfForPath (req : pathGetConfForPathReq)
| EvLog (level : logger.Level) (format : string) (args : list string)
| EvSleep (d : Z)
| EvGenerateICEServers
| EvNewSession (req : webRTCNewSessionReq)
| EvAddSessionCandidates (req : webRTCAddSessionCandidatesReq)
| EvDeleteSession (req : webRTCDeleteSessionReq).

(** ** Collaborators

    The path manager and the parent live outside this file.  They are
    stateful; [W] is their state and each method is a state transformer. *)

Record pathManager (W : Type) := mkPathManager {
  getConfForPath : pathGetConfForPathReq -> W -> pathGetConfForPathRes * W
}.
Arguments getConfForPath {W} _ _ _.

(** [type webRTCHTTPServerParent interface] *)
Class webRTCHTTPServerParent (W : Type) := mkParent {
  Log : logger.Level -> string -> list string -> W -> W;
  generateICEServers : W -> (list ICEServer * option error) * W;
  newSession : webRTCNewSessionReq -> W -> webRTCNewSessionRes * W;
  addSessionCandidates :
    webRTCAddSessionCandidatesReq -> W -> webRTCAddSessionCandidatesRes * W;
  deleteSession : webRTCDeleteSessionReq -> W -> option error * W
}.

(** Functions of other packages, package-level constants declared in
    other files of package core, and the two embedded pages. *)
Record Package := mkPackage {
  (** [uuid.Parse]; [None] is a non-nil error *)
  uuid_Parse : string -> option UUID;
  (** [UUID.String] *)
  uuid_String : UUID -> string;
  (** the port [net.SplitHostPort] returns, empty on error *)
  net_SplitHostPort_port : string -> string;
  net_JoinHostPort : string -> string -> string;
  net_ParseIP : string -> option string;
  (** [parseBasicAuth] of [net/http]: user, password, ok *)
  parseBasicAuth : string -> string * string * bool;
  (** [webrtc.ICEFragmentUnmarshal]; [None] is a non-nil error *)
  ICEFragmentUnmarshal : string -> option (list ICECandidateInit);
  (** [webrtc.LinkHeaderMarshal] *)
  LinkHeaderMarshal : list ICEServer -> list string;
  (** the pause after a failed authentication, in nanoseconds *)
  webrtcPauseAfterAuthError : Z;
  webrtcPublishIndex : string;
  webrtcReadIndex : string
}.

(** [type webRTCHTTPServer struct]; the wrapped [inner] server only
    carries the handler and is left out. *)
Record webRTCHTTPServer (W : Type) := mkServer {
  allowOrigin : string;
  pathManager_ : pathManager W;
  parent : webRTCHTTPServerParent W
}.
Arguments allowOrigin {W} _.
Arguments pathManager_ {W} _.
Arguments parent {W} _.

(** ** The gin context *)

(** gin's [ResponseWriter]: [status] is [None] until the handler sets
    one, in which case the status the framework chose before calling the
    handler stays. *)
Record ResponseWriter := mkWriter {
  Header : http.Header;
  status : option Z;
  written : bool;
  body : string
}.

Record Context (W : Type) := mkContext {
  Request_ : Request;
  Writer : ResponseWriter;
  world : W;
  events : list Event
}.
Arguments mkContext {W} _ _ _ _.
Arguments Request_ {W} _.
Arguments Writer {W} _.
Arguments world {W} _.
Arguments events {W} _.

Definition newWriter : ResponseWriter :=
  {| Header := ∅; status := None; written := false; body := "" |}.

(** The context gin hands to the handler of a fresh request. *)
Definition newContext {W : Type} (r : Request) (w : W) : Context W :=
  mkContext r newWriter w [].

(** A handler either returns or panics (a slice out of range, a nil
    pointer), in both cases leaving a context behind. *)
Inductive Outcome (W A : Type) :=
| Returned (a : A) (c : Context W)
| Panicked (c : Context W).
Arguments Returned {W A} _ _.
Arguments Panicked {W A} _.

Definition finalContext {W A : Type} (o : Outcome W A) : Context W :=
  match o with
  | Returned _ c => c
  | Panicked c => c
  end.

Definition returned {W A : Type} (o : Outcome W A) : bool :=
  match o with
  | Returned _ _ => true
  | Panicked _ => false
  end.

(** ** The handler monad *)

Definition Handler (W A : Type) : Type := Context W -> Outcome W A.

Definition ret {W A : Type} (a : A) : Handler W A :=
  fun c => Returned a c.

Definition bind {W A B : Type} (m : Handler W A) (k : A -> Handler W B)
  : Handler W B :=
  fun c =>
    match m c with
    | Returned a c' => k a c'
    | Panicked c' => Panicked c'
    end.

Definition panic {W A : Type} : Handler W A :=
  fun c => Panicked c.

#[global] Instance handler_ret {W : Type} : MRet (Handler W) := @ret W.
#[global] Instance handler_bind {W : Type} : MBind (Handler W) :=
  fun A B k m => bind m k.

(** A value Go computes with a bounds check. *)
Definition checked {W A : Type} (o : option A) : Handler W A :=
  match o with
  | Some a => ret a
  | None => panic
  end.

Section Primitives.
Context {W : Type}.

Definition getRequest : Handler W Request :=
  fun c => Returned (Request_ c) c.

Definition emit (e : Event) : Handler W unit :=
  fun c => Returned tt (mkContext (Request_ c) (Writer c) (world c) (events c ++ [e])).

(** A call into a collaborator: the event is recorded and the
    collaborator's state advances. *)
Definition call {A : Type} (e : Event) (f : W -> A * W) : Handler W A :=
  fun c =>
    let '(a, w') := f (world c) in
    Returned a (mkContext (Request_ c) (Writer c) w' (events c ++ [e])).

Definition modifyWriter (f : ResponseWriter -> ResponseWriter) : Handler W unit :=
  fun c => Returned tt (mkContext (Request_ c) (f (Writer c)) (world c) (events c)).

(** [ctx.Writer.Header().Set(key, value)], also [ctx.Header(key, value)]
    with a non-empty value. *)
Definition Header_Set (key value : string) : Handler W unit :=
  modifyWriter (fun w =>
    {| Header := http.Set_ (Header w) key value;
       status := status w; written := written w; body := body w |}).

(** [ctx.Writer.Header()[key] = values] *)
Definition Header_assign (key : string) (values : list string) : Handler W unit :=
  modifyWriter (fun w =>
    {| Header := http.Assign (Header w) key values;
       status := status w; written := written w; body := body w |}).

(** gin's [WriteHeader]: a code that is not positive is ignored, and so
    is any code once the response has started. *)
Definition Writer_WriteHeader (code : Z) : Handler W unit :=
  modifyWriter (fun w =>
    {| Header := Header w;
       status := if (0 <? code) && negb (written w)
                 then Some code else status w;
       written := written w;
       body := body w |}).

(** gin's [Write]: starts the response and appends to the body. *)
Definition Writer_Write (data : string) : Handler W unit :=
  modifyWriter (fun w =>
    {| Header := Header w; status := status w;
       written := true; body := body w +:+ data |}).

(** [ctx.Request.URL.Path += suffix] *)
Definition URL_Path_append (suffix : string) : Handler W unit :=
  fun c =>
    let r := Request_ c in
    let u := {| Path := Path (ReqURL r) +:+ suffix; RawQuery := RawQuery (ReqURL r) |} in
    let r' := {| Method := Method r; ReqURL := u; ReqHeader := ReqHeader r;
                 Body := Body r; RemoteAddr := RemoteAddr r; ClientIP := ClientIP r |} in
    Returned tt (mkContext r' (Writer c) (world c) (events c)).

(** [<-time.After(d)] *)
Definition sleep (d : Z) : Handler W unit := emit (EvSleep d).

End Primitives.

(** ** The server *)

Definition relativeLocation (u : URL) : string :=
  let p := Path u in
  if negb (String.eqb (RawQuery u) "")
  then p +:+ ("?" +:+ RawQuery u)
  else p.

(** The challenge [`Basic realm="mediamtx"`]. *)
Definition basicRealm : string :=
  "Basic realm=" +:+ String DQUOTE ("mediamtx" +:+ String DQUOTE EmptyString).

Definition allowMethods : string := "OPTIONS, GET, POST, PATCH, DELETE".
Definition allowHeaders : string := "Authorization, Content-Type, If-Match".

Section Server.
Context {W : Type}.
Variable pkg : Package.
Variable s : webRTCHTTPServer W.

(** [Request.BasicAuth] of [net/http] *)
Definition BasicAuth (r : Request) : string * string * bool :=
  let auth := http.Get (ReqHeader r) "Authorization" in
  if String.eqb auth "" then ("", "", false)
  else parseBasicAuth pkg auth.

(** [s.Log] forwards to the parent. *)
Definition server_Log (level : logger.Level) (format : string) (args : list string)
  : Handler W unit :=
  call (EvLog level format args)
       (fun w => (tt, @Log W (parent s) level format args w)).

(** The access request [checkAuthOutsideSession] builds. *)
Definition accessRequestOf (r : Request) (path : string) (publish : bool)
  : pathGetConfForPathReq :=
  let ip := ClientIP r in
  let '(user, pass, _) := BasicAuth r in
  {| accessRequest :=
       {| ar_name := path;
          ar_query := RawQuery (ReqURL r);
          ar_publish := publish;
          ar_ip := net_ParseIP pkg ip;
          ar_user := user;
          ar_pass := pass;
          ar_proto := authProtocolWebRTC |} |}.

Definition checkAuthOutsideSession (path : string) (publish : bool)
  : Handler W bool :=
  r ← getRequest;
  let ip := ClientIP r in
  let port := net_SplitHostPort_port pkg (RemoteAddr r) in
  let remoteAddr := net_JoinHostPort pkg ip port in
  let '(_, _, hasCredentials) := BasicAuth r in
  let req := accessRequestOf r path publish in
  res ← call (EvGetConfForPath req) (getConfForPath (pathManager_ s) req);
  match cr_err res with
  | Some (errAuthentication message) =>
      if negb hasCredentials then
        Header_Set "WWW-Authenticate" basicRealm ;;
        Writer_WriteHeader http.StatusUnauthorized ;;
        ret false
      else
        server_Log logger.Info "connection %v failed to authenticate: %v"
                   [remoteAddr; message] ;;
        (* wait some seconds to stop brute force attacks *)
        sleep (webrtcPauseAfterAuthError pkg) ;;
        Writer_WriteHeader http.StatusUnauthorized ;;
        ret false
  | Some _ =>
      Writer_WriteHeader http.StatusNotFound ;;
      ret false
  | None => ret true
  end.

Definition onWHIPOptions (path : string) (publish : bool) : Handler W unit :=
  ok ← checkAuthOutsideSession path publish;
  if negb ok then ret tt
  else
    '(servers, err) ← call EvGenerateICEServers
                            (@generateICEServers W (parent s));
    match err with
    | Some _ => Writer_WriteHeader http.StatusInternalServerError
    | None =>
        Header_Set "Access-Control-Allow-Methods" allowMethods ;;
        Header_Set "Access-Control-Allow-Headers" allowHeaders ;;
        Header_Set "Access-Control-Expose-Headers" "Link" ;;
        Header_assign "Link" (LinkHeaderMarshal pkg servers) ;;
        Writer_WriteHeader http.StatusNoContent
    end.

(** The request [onWHIPPost] hands to the parent. *)
Definition newSessionReqOf (r : Request) (path : string) (publish : bool)
           (offer : string) : webRTCNewSessionReq :=
  let ip := ClientIP r in
  let port := net_SplitHostPort_port pkg (RemoteAddr r) in
  let remoteAddr := net_JoinHostPort pkg ip port in
  let '(user, pass, _) := BasicAuth r in
  {| ns_pathName := path;
     ns_remoteAddr := remoteAddr;
     ns_query := RawQuery (ReqURL r);
     ns_user := user;
     ns_pass := pass;
     ns_offer := offer;
     ns_publish := publish |}.

Definition onWHIPPost (path : string) (publish : bool) : Handler W unit :=
  r ← getRequest;
  if negb (String.eqb (http.Get (ReqHeader r) "Content-Type") "application/sdp")
  then Writer_WriteHeader http.StatusBadRequest
  else
    match Body r with
    | None => ret tt
    | Some offer =>
        let req := newSessionReqOf r path publish offer in
        res ← call (EvNewSession req) (@newSession W (parent s) req);
        match nr_err res with
        | Some _ => Writer_WriteHeader (nr_errStatusCode res)
        | None =>
            '(servers, err) ← call EvGenerateICEServers
                                    (@generateICEServers W (parent s));
            match err with
            | Some _ => Writer_WriteHeader http.StatusInternalServerError
            | None =>
                Header_Set "Content-Type" "application/sdp" ;;
                Header_Set "Access-Control-Expose-Headers"
                           "ETag, Accept-Patch, Link, Location" ;;
                Header_Set "ETag" "*" ;;
                sx ← checked (nr_sx res);
                Header_Set "ID" (uuid_String pkg (sx_uuid sx)) ;;
                Header_Set "Accept-Patch" "application/trickle-ice-sdpfrag" ;;
                Header_assign "Link" (LinkHeaderMarshal pkg servers) ;;
                URL_Path_append ("/" +:+ uuid_String pkg (sx_secret sx)) ;;
                r' ← getRequest;
                Header_Set "Location" (relativeLocation (ReqURL r')) ;;
                Writer_WriteHeader http.StatusCreated ;;
                Writer_Write (nr_answer res)
            end
        end
    end.

Definition onWHIPPatch (rawSecret : string) : Handler W unit :=
  match uuid_Parse pkg rawSecret with
  | None => Writer_WriteHeader http.StatusBadRequest
  | Some secret =>
      r ← getRequest;
      if negb (String.eqb (http.Get (ReqHeader r) "Content-Type")
                          "application/trickle-ice-sdpfrag")
      then Writer_WriteHeader http.StatusBadRequest
      else
        match Body r with
        | None => ret tt
        | Some byts =>
            match ICEFragmentUnmarshal pkg byts with
            | None => Writer_WriteHeader http.StatusBadRequest
            | Some candidates =>
                let req := {| ac_secret := secret; ac_candidates := candidates |} in
                res ← call (EvAddSessionCandidates req)
                            (@addSessionCandidates W (parent s) req);
                match acr_err res with
                | Some _ => Writer_WriteHeader http.StatusBadRequest
                | None => Writer_WriteHeader http.StatusNoContent
                end
            end
        end
  end.

Definition onWHIPDelete (rawSecret : string) : Handler W unit :=
  match uuid_Parse pkg rawSecret with
  | None => Writer_WriteHeader http.StatusBadRequest
  | Some secret =>
      let req := {| ds_secret := secret |} in
      err ← call (EvDeleteSession req) (@deleteSession W (parent s) req);
      match err with
      | Some _ => Writer_WriteHeader http.StatusBadRequest
      | None => Writer_WriteHeader http.StatusOK
      end
  end.

Definition onPage (path : string) (publish : bool) : Handler W unit :=
  ok ← checkAuthOutsideSession path publish;
  if negb ok then ret tt
  else
    Header_Set "Cache-Control" "max-age=3600" ;;
    Header_Set "Content-Type" "text/html" ;;
    Writer_WriteHeader http.StatusOK ;;
    if publish then Writer_Write (webrtcPublishIndex pkg)
    else Writer_Write (webrtcReadIndex pkg).

Definition onRequest : Handler W unit :=
  Header_Set "Access-Control-Allow-Origin" (allowOrigin s) ;;
  Header_Set "Access-Control-Allow-Credentials" "true" ;;
  r ← getRequest;
  let path := Path (ReqURL r) in
  (* preflight requests *)
  if String.eqb (Method r) http.MethodOptions
     && negb (String.eqb (http.Get (ReqHeader r) "Access-Control-Request-Method") "")
  then
    Header_Set "Access-Control-Allow-Methods" allowMethods ;;
    Header_Set "Access-Control-Allow-Headers" allowHeaders ;;
    Writer_WriteHeader http.StatusNoContent
  else
    (* WHIP, outside session *)
    match reWHIPWHEPNoID path with
    | Some (m1, m2) =>
        if String.eqb (Method r) http.MethodOptions then
          onWHIPOptions m1 (String.eqb m2 "whip")
        else if String.eqb (Method r) http.MethodPost then
          onWHIPPost m1 (String.eqb m2 "whip")
        else if String.eqb (Method r) http.MethodGet
                || String.eqb (Method r) http.MethodHead
                || String.eqb (Method r) http.MethodPut then
          Writer_WriteHeader http.StatusMethodNotAllowed
        else ret tt
    | None =>
        (* WHIP, inside session *)
        match reWHIPWHEPWithID path with
        | Some (_, _, m3) =>
            if String.eqb (Method r) http.MethodPatch then onWHIPPatch m3
            else if String.eqb (Method r) http.MethodDelete then onWHIPDelete m3
            else ret tt
        | None =>
            (* static resources *)
            if String.eqb (Method r) http.MethodGet then
              if String.eqb path "/favicon.ico" then ret tt
              else if 3 <=? len path then
                if HasSuffix path "/publish" then
                  name ← checked (slice path 1 (len path - len "/publish"));
                  onPage name true
                else
                  last ← checked (index path (len path - 1));
                  if negb (Ascii.eqb last "/") then
                    URL_Path_append "/" ;;
                    r' ← getRequest;
                    Header_Set "Location" (relativeLocation (ReqURL r')) ;;
                    Writer_WriteHeader http.StatusMovedPermanently
                  else
                    name ← checked (slice path 1 (len path - 1));
                    onPage name false
              else ret tt
            else ret tt
        end
    end.

(** The handler run on the fresh context of a request. *)
Definition serve (r : Request) (w : W) : Outcome W unit :=
  onRequest (newContext r w).

End Server.

(** ** Predicates on runs *)

(** [m] never breaks [P] on the response writer, whether it returns or
    panics. *)
Definition keeps {W A : Type} (P : ResponseWriter -> Prop) (m : Handler W A)
  : Prop :=
  forall c, P (Writer c) -> P (Writer (finalContext (m c))).

(** The two headers [onRequest] sets first. *)
Definition cors {W : Type} (s : webRTCHTTPServer W) (w : ResponseWriter) : Prop :=
  Header w !! "Access-Control-Allow-Origin" = Some [allowOrigin s]
  /\ Header w !! "Access-Control-Allow-Credentials" = Some ["true"].

(** Total length of the pauses among the events. *)
Fixpoint paused (evs : list Event) : Z :=
  match evs with
  | [] => 0
  | EvSleep d :: evs' => d + paused evs'
  | _ :: evs' => paused evs'
  end.

(** ** A concrete server

    One path, [cam1], that allowed user [alice]; a parent that keeps the
    secrets of its sessions; a single STUN server. *)

Module Fixture.

Definition sessionID : UUID :=
  mkUUID [Byte.xf4; Byte.x7a; Byte.xc1; Byte.x0b; Byte.x58; Byte.xcc; Byte.x43; Byte.x72;
          Byte.xa5; Byte.x67; Byte.x0e; Byte.x02; Byte.xb2; Byte.xc3; Byte.xd4; Byte.x79].
Definition sessionIDText : string := "f47ac10b-58cc-4372-a567-0e02b2c3d479".

Definition sessionSecret : UUID :=
  mkUUID [Byte.x3b; Byte.x24; Byte.x11; Byte.x01; Byte.xe2; Byte.xbb; Byte.x42; Byte.x55;
          Byte.x8c; Byte.xaf; Byte.x41; Byte.x36; Byte.xc5; Byte.x66; Byte.xa9; Byte.x62].
Definition sessionSecretText : string := "3b241101-e2bb-4255-8caf-4136c566a962".

Definition otherSecret : UUID :=
  mkUUID [Byte.x00; Byte.x00; Byte.x00; Byte.x00; Byte.x00; Byte.x00; Byte.x40; Byte.x00;
          Byte.x80; Byte.x00; Byte.x00; Byte.x00; Byte.x00; Byte.x00; Byte.x00; Byte.x01].
Definition otherSecretText : string := "00000000-0000-4000-8000-000000000001".

(** The three UUIDs this server ever meets. *)
Definition parseUUID (t : string) : option UUID :=
  if String.eqb t sessionIDText then Some sessionID
  else if String.eqb t sessionSecretText then Some sessionSecret
  else if String.eqb t otherSecretText then Some otherSecret
  else None.

Definition isSecret (u : UUID) : bool :=
  match uuidBytes u with
  | Byte.x3b :: _ => true
  | _ => false
  end.

Definition isOther (u : UUID) : bool :=
  match uuidBytes u with
  | Byte.x00 :: _ => true
  | _ => false
  end.

Definition textOfUUID (u : UUID) : string :=
  if isSecret u then sessionSecretText
  else if isOther u then otherSecretText
  else sessionIDText.

(** The text after the last colon. *)
Fixpoint portOf (acc : string) (hostport : string) : string :=
  match hostport with
  | EmptyString => acc
  | String c rest =>
      if Ascii.eqb c ":" then portOf rest rest else portOf acc rest
  end.

(** [Authorization] values for [alice:s3cret] and [alice:wrong]. *)
Definition goodAuthorization : string := "Basic YWxpY2U6czNjcmV0".
Definition badAuthorization : string := "Basic YWxpY2U6d3Jvbmc=".

Definition decodeBasic (auth : string) : string * string * bool :=
  if String.eqb auth goodAuthorization then ("alice", "s3cret", true)
  else if String.eqb auth badAuthorization then ("alice", "wrong", true)
  else ("", "", false).

Definition unmarshalFragment (byts : string) : option (list ICECandidateInit) :=
  match stripPrefix "a=ice-ufrag:" byts with
  | Some _ =>
      Some [ {| Candidate := byts; SDPMid := Some "0";
                SDPMLineIndex := Some 0; UsernameFragment := None |} ]
  | None => None
  end.

Definition linkOf (srv : ICEServer) : list string :=
  (fun u => "<" +:+ u +:+ ">; rel="
            +:+ String DQUOTE ("ice-server" +:+ String DQUOTE EmptyString))
    <$> URLs srv.

Definition pkg : Package :=
  {| uuid_Parse := parseUUID;
     uuid_String := textOfUUID;
     net_SplitHostPort_port := portOf "";
     net_JoinHostPort := fun host port => host +:+ ":" +:+ port;
     net_ParseIP := Some;
     parseBasicAuth := decodeBasic;
     ICEFragmentUnmarshal := unmarshalFragment;
     LinkHeaderMarshal := fun servers => servers ≫= linkOf;
     webrtcPauseAfterAuthError := 2 * Second;
     webrtcPublishIndex := "<html><body>publish</body></html>";
     webrtcReadIndex := "<html><body>read</body></html>" |}.

(** The state of the collaborators: the secrets of the live sessions. *)
Abbreviation World := (list string).

Definition allowed (name user pass : string) : option error :=
  if String.eqb name "cam1" then
    if String.eqb user "alice" && String.eqb pass "s3cret" then None
    else Some (errAuthentication "authentication failed")
  else Some (errOther "path is not configured").

Definition paths : pathManager World :=
  {| getConfForPath := fun req w =>
       let a := accessRequest req in
       ({| cr_err := allowed (ar_name a) (ar_user a) (ar_pass a) |}, w) |}.

Definition stun : ICEServer :=
  {| URLs := ["stun:stun.example.org:3478"]; Username := ""; Credential := "" |}.

Definition statusOf (e : error) : Z :=
  match e with
  | errAuthentication _ => http.StatusUnauthorized
  | errOther _ => http.StatusNotFound
  end.

Definition known (secret : UUID) (w : World) : bool :=
  existsb (String.eqb (textOfUUID secret)) w.

Definition coordinator (ice : list ICEServer * option error)
  : webRTCHTTPServerParent World :=
  {| Log := fun _ _ _ w => w;
     generateICEServers := fun w => (ice, w);
     newSession := fun req w =>
       match allowed (ns_pathName req) (ns_user req) (ns_pass req) with
       | Some e =>
           ({| nr_sx := None; nr_answer := ""; nr_err := Some e;
               nr_errStatusCode := statusOf e |}, w)
       | None =>
           ({| nr_sx := Some {| sx_uuid := sessionID; sx_secret := sessionSecret |};
               nr_answer := "v=0 answer to " +:+ ns_offer req;
               nr_err := None; nr_errStatusCode := 0 |},
            sessionSecretText :: w)
       end;
     addSessionCandidates := fun req w =>
       if known (ac_secret req) w
       then ({| acr_sx := Some {| sx_uuid := sessionID; sx_secret := ac_secret req |};
                acr_err := None |}, w)
       else ({| acr_sx := None; acr_err := Some (errOther "session not found") |}, w);
     deleteSession := fun req w =>
       if known (ds_secret req) w
       then (None, filter (fun t => t ≠ textOfUUID (ds_secret req)) w)
       else (Some (errOther "session not found"), w) |}.

Definition server : webRTCHTTPServer World :=
  {| allowOrigin := "*"; pathManager_ := paths;
     parent := coordinator ([stun], None) |}.

(** The same server when the parent cannot produce its ICE servers. *)
Definition serverNoICE : webRTCHTTPServer World :=
  {| allowOrigin := "*"; pathManager_ := paths;
     parent := coordinator ([], Some (errOther "no ICE servers")) |}.

Definition request (method path query : string)
           (headers : list (string * string)) (body : option string) : Request :=
  {| Method := method;
     ReqURL := {| Path := path; RawQuery := query |};
     ReqHeader := list_to_map ((fun kv => (kv.1, [kv.2])) <$> headers);
     Body := body;
     RemoteAddr := "192.0.2.7:51234";
     ClientIP := "192.0.2.7" |}.

(** Requests used below. *)
Definition secretURL : string := "/cam1/whip/" +:+ sessionSecretText.

Definition optionsNoCredentials : Request :=
  request "OPTIONS" "/cam1/whip" "" [] None.
Definition optionsWrongCredentials : Request :=
  request "OPTIONS" "/cam1/whip" "" [("Authorization", badAuthorization)] None.
Definition optionsGoodCredentials : Request :=
  request "OPTIONS" "/cam1/whip" "" [("Authorization", goodAuthorization)] None.
Definition preflight : Request :=
  request "OPTIONS" "/cam1/whip" ""
          [("Access-Control-Request-Method", "POST");
           ("Origin", "https://player.example.org")] None.
Definition postOffer (query : string) : Request :=
  request "POST" "/cam1/whip" query
          [("Authorization", goodAuthorization);
           ("Content-Type", "application/sdp")]
          (Some "v=0 offer").
Definition getEndpoint : Request :=
  request "GET" "/cam1/whip" "" [] None.
Definition getBare : Request :=
  request "GET" "/cam1" "controls=0" [] None.
Definition getPublishPage : Request :=
  request "GET" "/cam1/publish" "" [("Authorization", goodAuthorization)] None.

End Fixture.

(** ** Starting the server *)

(** The gin engine as [newWebRTCHTTPServer] configures it: the trusted
    proxies and the one handler, registered with [NoRoute]. *)
Record ginEngine (W : Type) := mkGinEngine {
  trustedProxies : list string;
  noRoute : Handler W unit
}.
Arguments mkGinEngine {W} _ _.
Arguments trustedProxies {W} _.
Arguments noRoute {W} _.

(** What [newWebRTCHTTPServer] calls outside this file: [restrictNetwork]
    of package core, [conf.IPsOrCIDRs.ToTrustedProxies] and
    [httpserv.NewWrappedServer], which opens the listener and so acts on
    the state [L] of the host. *)
Record Startup (W L Inner : Type) := mkStartup {
  restrictNetwork : string -> string -> string * string;
  ToTrustedProxies : list string -> list string;
  NewWrappedServer :
    string -> string -> Z -> string -> string ->
    ginEngine W -> webRTCHTTPServer W -> L -> (Inner + error) * L
}.
Arguments restrictNetwork {W L Inner} _ _ _.
Arguments ToTrustedProxies {W L Inner} _ _.
Arguments NewWrappedServer {W L Inner} _ _ _ _ _ _ _ _ _.

(** [newWebRTCHTTPServer]: the server with its wrapped inner server, or
    the error. *)
Definition newWebRTCHTTPServer {W L Inner : Type}
           (pkg : Package) (env : Startup W L Inner)
           (address : string) (encryption : bool)
           (serverKey serverCert allowOrigin : string)
           (trusted : list string) (readTimeout : Z)
           (pm : pathManager W) (par : webRTCHTTPServerParent W) (l : L)
  : (webRTCHTTPServer W * Inner + error) * L :=
  if encryption && String.eqb serverCert "" then
    (inr (errOther "server cert is missing"), l)
  else
    let serverKey := if encryption then serverKey else "" in
    let serverCert := if encryption then serverCert else "" in
    let s := {| allowOrigin := allowOrigin; pathManager_ := pm; parent := par |} in
    let router := {| trustedProxies := ToTrustedProxies env trusted;
                     noRoute := onRequest pkg s |} in
    let '(network, address) := restrictNetwork env "tcp" address in
    match NewWrappedServer env network address readTimeout
                           serverCert serverKey router s l with
    | (inl inner, l') => (inl (s, inner), l')
    | (inr err, l') => (inr err, l')
    end.

(** ** More predicates on runs *)

(** Which parent calls a request of method [m] may cause. *)
Definition allowedFor (m : string) (e : Event) : Prop :=
  match e with
  | EvNewSession _ => m = "POST"
  | EvAddSessionCandidates _ => m = "PATCH"
  | EvDeleteSession _ => m = "DELETE"
  | _ => True
  end.

(** [m] adds only events that satisfy [Q]. *)
Definition emitsOnly {W A : Type} (Q : Event -> Prop) (m : Handler W A) : Prop :=
  forall c, Forall Q (events c) -> Forall Q (events (finalContext (m c))).

(** [m] never panics. *)
Definition safe {W A : Type} (m : Handler W A) : Prop :=
  forall c, returned (m c) = true.

(** The valid ways to read a path as [/<name>/<kind>/<secret>]. *)
Definition sessionSplit (path name kind secret : string) : Prop :=
  path = "/" +:+ name +:+ "/" +:+ kind +:+ "/" +:+ secret
  /\ name <> "" /\ noLF name = true
  /\ (kind = "whip" \/ kind = "whep")
  /\ secret <> "" /\ noLF secret = true.

(** The context every request is in once [onRequest] has set its two
    headers. *)
Definition corsContext {W : Type} (s : webRTCHTTPServer W) (r : Request) (w : W)
  : Context W :=
  mkContext r
    {| Header := http.Set_ (http.Set_ ∅ "Access-Control-Allow-Origin" (allowOrigin s))
                           "Access-Control-Allow-Credentials" "true";
       status := None; written := false; body := "" |}
    w [].

(** The answer [onRequest] itself writes: a status and, for some, two
    more headers. *)
Definition answered {W : Type} (c : Context W) (code : Z)
           (headers : list (string * string)) : Context W :=
  mkContext (Request_ c)
    {| Header := foldl (fun h kv => http.Set_ h kv.1 kv.2) (Header (Writer c)) headers;
       status := Some code; written := false; body := "" |}
    (world c) (events c).

Definition isSleep (e : Event) : bool :=
  match e with EvSleep _ => true | _ => false end.

(** ** A server that lets every path in *)

(** Path names may hold slashes, [whip] and [whep] among their segments.
    This path manager and this parent admit every name, so that such
    paths can be published and read. *)
Module Open.
Import Fixture.

Definition paths : pathManager World :=
  {| getConfForPath := fun _ w => ({| cr_err := None |}, w) |}.

Definition coordinator : webRTCHTTPServerParent World :=
  {| Log := fun _ _ _ w => w;
     generateICEServers := fun w => (([stun], None), w);
     newSession := fun req w =>
       ({| nr_sx := Some {| sx_uuid := sessionID; sx_secret := sessionSecret |};
           nr_answer := "v=0 answer to " +:+ ns_offer req;
           nr_err := None; nr_errStatusCode := 0 |},
        sessionSecretText :: w);
     addSessionCandidates :=
       @addSessionCandidates World (Fixture.coordinator ([stun], None));
     deleteSession :=
       @deleteSession World (Fixture.coordinator ([stun], None)) |}.

Definition server : webRTCHTTPServer World :=
  {| allowOrigin := "*"; pathManager_ := paths; parent := coordinator |}.


End Open.

(** * Properties *)

(** ** Strings and the two patterns *)

Example reNoID_cam1 : reWHIPWHEPNoID "/cam1/whip" = Some ("cam1", "whip").
Proof. reflexivity. Qed.
Example reNoID_nested : reWHIPWHEPNoID "/a/b/whep" = Some ("a/b", "whep").
Proof. reflexivity. Qed.
Example reNoID_shadow : reWHIPWHEPNoID "/cam1/whip/whep" = Some ("cam1/whip", "whep").
Proof. reflexivity. Qed.
Example reNoID_short : reWHIPWHEPNoID "/whip" = None.
Proof. reflexivity. Qed.
Example reWithID_cam1 :
  reWHIPWHEPWithID "/cam1/whip/abc" = Some ("cam1", "whip", "abc").
Proof. reflexivity. Qed.
Example reWithID_lazy :
  reWHIPWHEPWithID "/a/whip/b/whep/c" = Some ("a", "whip", "b/whep/c").
Proof. reflexivity. Qed.
Example reWithID_none : reWHIPWHEPWithID "/cam1/whip/" = None.
Proof. reflexivity. Qed.

Section StringFacts.

Lemma append_cons (x : ascii) (a b : string) :
  String x a +:+ b = String x (a +:+ b).
Proof. reflexivity. Qed.

Lemma append_nil_l (a : string) : "" +:+ a = a.
Proof. reflexivity. Qed.

Lemma append_nil_r (a : string) : a +:+ "" = a.
Proof.
  induction a as [|x a IH]; [reflexivity |].
  now rewrite append_cons, IH.
Qed.

Lemma append_assoc (a b c : string) : (a +:+ b) +:+ c = a +:+ (b +:+ c).
Proof.
  induction a as [|x a IH]; [reflexivity |].
  now rewrite !append_cons, IH.
Qed.

Lemma append_length (a b : string) :
  String.length (a +:+ b) = (String.length a + String.length b)%nat.
Proof.
  induction a as [|x a IH]; [reflexivity |].
  rewrite append_cons. simpl. now rewrite IH.
Qed.

Lemma len_append (a b : string) : len (a +:+ b) = len a + len b.
Proof. unfold len. rewrite append_length. lia. Qed.

Lemma len_nonneg (a : string) : 0 <= len a.
Proof. unfold len. lia. Qed.

Lemma len_cons (x : ascii) (a : string) : len (String x a) = 1 + len a.
Proof. unfold len. simpl String.length. lia. Qed.

Lemma noLF_append (a b : string) : noLF (a +:+ b) = noLF a && noLF b.
Proof.
  induction a as [|x a IH]; [reflexivity |].
  rewrite append_cons. simpl. rewrite IH. now rewrite andb_assoc.
Qed.

Lemma stripPrefix_Some (p s r : string) :
  stripPrefix p s = Some r <-> s = p +:+ r.
Proof.
  revert s. induction p as [|a p IH]; intros s.
  - simpl. rewrite append_nil_l.
    split; [intros [= ->] | intros ->]; reflexivity.
  - rewrite append_cons. simpl.
    destruct s as [|b s]; [split; discriminate |].
    destruct (Ascii.eqb a b) eqn:E.
    + apply Ascii.eqb_eq in E as ->. rewrite IH.
      split; [intros -> | intros [= ->]]; reflexivity.
    + apply Ascii.eqb_neq in E.
      split; [discriminate | intros [= <- _]; contradiction].
Qed.

Lemma stripPrefix_append (p r : string) : stripPrefix p (p +:+ r) = Some r.
Proof. now apply stripPrefix_Some. Qed.

Lemma atEnd_true (e : string) : Pattern.atEnd e = true <-> e = "".
Proof. destruct e; simpl; split; congruence. Qed.

(** [(whip|whep)] matches exactly the two words. *)
Lemma whipOrWhep_Some (t m2 e : string) :
  Pattern.whipOrWhep t = Some (m2, e) <->
  (m2 = "whip" \/ m2 = "whep") /\ t = m2 +:+ e.
Proof.
  unfold Pattern.whipOrWhep.
  destruct (stripPrefix "whip" t) as [r|] eqn:E1.
  - apply stripPrefix_Some in E1. subst t. split.
    + intros [= <- <-]. auto.
    + intros [[-> | ->] H]; rewrite ?append_cons, ?append_nil_l in H;
        [| discriminate H].
      injection H as ->. reflexivity.
  - destruct (stripPrefix "whep" t) as [r|] eqn:E2.
    + apply stripPrefix_Some in E2. subst t. split.
      * intros [= <- <-]. auto.
      * intros [[-> | ->] H]; rewrite ?append_cons, ?append_nil_l in H;
          [discriminate H |].
        injection H as ->. reflexivity.
    + split; [discriminate |].
      intros [[-> | ->] ->].
      * now rewrite stripPrefix_append in E1.
      * now rewrite stripPrefix_append in E2.
Qed.

(** What may follow the first group of the endpoint pattern. *)
Lemma tailNoID_Some (m1 rest a b : string) :
  Pattern.tailNoID m1 rest = Some (a, b) <->
  a = m1 /\ (b = "whip" \/ b = "whep") /\ rest = "/" +:+ b.
Proof.
  unfold Pattern.tailNoID.
  destruct (stripPrefix "/" rest) as [r|] eqn:E.
  - apply stripPrefix_Some in E. subst rest.
    destruct (Pattern.whipOrWhep r) as [[m2 e]|] eqn:Ew.
    + apply whipOrWhep_Some in Ew as [Hm ->].
      destruct (Pattern.atEnd e) eqn:Ee.
      * apply atEnd_true in Ee as ->. rewrite append_nil_r. split.
        -- intros [= <- <-]. auto.
        -- intros (-> & _ & H). apply (inj (String.append "/")) in H. now subst.
      * split; [discriminate |].
        intros (-> & Hb & H). apply (inj (String.append "/")) in H.
        assert (Pattern.atEnd e = true) as Ht; [| congruence].
        apply atEnd_true.
        destruct Hm as [-> | ->], Hb as [-> | ->];
          rewrite ?append_cons, ?append_nil_l in H; congruence.
    + split; [discriminate |].
      intros (-> & Hb & H). apply (inj (String.append "/")) in H. subst r.
      assert (Pattern.whipOrWhep (b +:+ "") = Some (b, "")) as Hw
          by (apply whipOrWhep_Some; auto).
      rewrite append_nil_r in Hw. congruence.
  - split; [discriminate |].
    intros (-> & _ & ->). now rewrite stripPrefix_append in E.
Qed.

(** A lazy [.+?] that succeeds has consumed a non-empty prefix free of
    line feeds, after which the rest of the pattern matched. *)
Lemma dotPlusLazy_Some {A : Type} (k : string -> string -> option A)
      (s acc : string) (r : A) :
  Pattern.dotPlusLazy k acc s = Some r ->
  exists pre post,
    s = pre +:+ post /\ pre <> "" /\ noLF pre = true
    /\ k (acc +:+ pre) post = Some r.
Proof.
  revert acc. induction s as [|c s IH]; intros acc; simpl; [discriminate |].
  destruct (Ascii.eqb c LF) eqn:Ec; [discriminate |].
  destruct (k (acc +:+ String c "") s) as [r'|] eqn:Ek.
  - intros [= ->]. exists (String c ""), s.
    repeat split; [discriminate | simpl; now rewrite Ec | exact Ek].
  - intros H. apply IH in H as (pre & post & -> & _ & Hlf & Hk).
    exists (String c pre), post.
    rewrite append_assoc in Hk.
    repeat split; [discriminate | simpl; now rewrite Ec | exact Hk].
Qed.

(** The lazy group stops at the first place where the rest matches. *)
Lemma dotPlusLazy_first {A : Type} (k : string -> string -> option A)
      (pre post acc : string) (r : A) :
  pre <> "" -> noLF pre = true ->
  k (acc +:+ pre) post = Some r ->
  (forall p1 p2, pre = p1 +:+ p2 -> p1 <> "" -> p2 <> "" ->
                 k (acc +:+ p1) (p2 +:+ post) = None) ->
  Pattern.dotPlusLazy k acc (pre +:+ post) = Some r.
Proof.
  revert acc. induction pre as [|c pre IH]; intros acc Hne Hlf Hk Hfirst;
    [contradiction |].
  rewrite append_cons. simpl in *.
  apply andb_prop in Hlf as [Hc Hlf].
  apply negb_true_iff in Hc. unfold LF in *. rewrite Hc.
  destruct pre as [|d pre].
  - rewrite append_nil_l. now rewrite Hk.
  - rewrite (Hfirst (String c "") (String d pre)); try done.
    apply IH; try done.
    + now rewrite append_assoc.
    + intros p1 p2 E Hp1 Hp2. rewrite append_assoc.
      apply (Hfirst (String c p1) p2); try done.
      rewrite append_cons. now rewrite E.
Qed.

End StringFacts.

(** The endpoint pattern matches exactly the paths [/<name>/whip] and
    [/<name>/whep] whose name is non-empty and free of line feeds, and it
    captures the name and the word. *)
Lemma reWHIPWHEPNoID_Some (path name kind : string) :
  reWHIPWHEPNoID path = Some (name, kind) <->
  path = "/" +:+ name +:+ "/" +:+ kind
  /\ name <> "" /\ noLF name = true /\ (kind = "whip" \/ kind = "whep").
Proof.
  unfold reWHIPWHEPNoID. split.
  - destruct (stripPrefix "/" path) as [s1|] eqn:E; [| discriminate].
    apply stripPrefix_Some in E. subst path. intros H.
    apply dotPlusLazy_Some in H as (pre & post & -> & Hne & Hlf & Hk).
    rewrite append_nil_l in Hk.
    apply tailNoID_Some in Hk as (-> & Hkind & ->). auto.
  - intros (-> & Hne & Hlf & Hkind).
    rewrite stripPrefix_append.
    apply dotPlusLazy_first; try done.
    + apply tailNoID_Some. auto.
    + intros p1 p2 _ _ Hp2.
      destruct (Pattern.tailNoID ("" +:+ p1) (p2 +:+ "/" +:+ kind))
        as [[a b]|] eqn:Et; [| reflexivity].
      apply tailNoID_Some in Et as (_ & Hb & Hrest).
      apply (f_equal String.length) in Hrest.
      rewrite !append_length in Hrest.
      destruct p2; [contradiction |].
      destruct Hkind as [-> | ->], Hb as [-> | ->]; simpl in Hrest; lia.
Qed.

(** A path the session pattern matches splits into a name, [whip] or
    [whep], and a non-empty rest, the secret. *)
Lemma reWHIPWHEPWithID_Some (path name kind secret : string) :
  reWHIPWHEPWithID path = Some (name, kind, secret) ->
  path = "/" +:+ name +:+ "/" +:+ kind +:+ "/" +:+ secret
  /\ name <> "" /\ noLF name = true
  /\ (kind = "whip" \/ kind = "whep")
  /\ secret <> "" /\ noLF secret = true.
Proof.
  unfold reWHIPWHEPWithID.
  destruct (stripPrefix "/" path) as [s1|] eqn:E; [| discriminate].
  apply stripPrefix_Some in E. subst path. intros H.
  apply dotPlusLazy_Some in H as (pre & post & -> & Hne & Hlf & Hk).
  rewrite append_nil_l in Hk. unfold Pattern.tailWithID in Hk.
  destruct (stripPrefix "/" post) as [r|] eqn:E1; [| discriminate].
  apply stripPrefix_Some in E1. subst post.
  destruct (Pattern.whipOrWhep r) as [[m2 r2]|] eqn:Ew; [| discriminate].
  apply whipOrWhep_Some in Ew as [Hm ->].
  destruct (stripPrefix "/" r2) as [r3|] eqn:E3; [| discriminate].
  apply stripPrefix_Some in E3. subst r2.
  apply dotPlusLazy_Some in Hk as (p3 & e & -> & Hne3 & Hlf3 & Hk).
  rewrite append_nil_l in Hk.
  destruct (Pattern.atEnd e) eqn:Ee; [| discriminate].
  apply atEnd_true in Ee as ->. rewrite append_nil_r.
  injection Hk as <- <- <-. auto 10.
Qed.

(** *** Session URLs with a one-segment name and secret *)

Lemma noSlash_append (a b : string) : noSlash (a +:+ b) = noSlash a && noSlash b.
Proof.
  induction a as [|x a IH]; [reflexivity |].
  rewrite append_cons. simpl. rewrite IH. now rewrite andb_assoc.
Qed.

(** The text after the last slash is determined by the whole. *)
Lemma last_segment_inj (a b a' b' : string) :
  noSlash b = true -> noSlash b' = true ->
  a +:+ "/" +:+ b = a' +:+ "/" +:+ b' -> b = b'.
Proof.
  intros Hb Hb'. revert a'.
  induction a as [|x a IH]; intros [|x' a'] E;
    rewrite ?append_cons, ?append_nil_l in E.
  - now injection E.
  - injection E as <- E. rewrite E, noSlash_append in Hb.
    simpl in Hb. now rewrite andb_false_r in Hb.
  - injection E as -> E. rewrite <- E, noSlash_append in Hb'.
    simpl in Hb'. now rewrite andb_false_r in Hb'.
  - injection E as _ E. now apply (IH a').
Qed.

(** A URL [/<name>/<kind>/<secret>] whose name and secret are single
    segments, the secret being neither [whip] nor [whep], is a session
    URL to the router: the endpoint pattern refuses it and the session
    pattern captures exactly the three parts.  Every UUID in text form
    is such a secret. *)
Lemma session_url_routing (name kind secret : string) :
  name <> "" -> noLF name = true -> noSlash name = true ->
  kind = "whip" \/ kind = "whep" ->
  secret <> "" -> noLF secret = true -> noSlash secret = true ->
  secret <> "whip" -> secret <> "whep" ->
  let path := "/" +:+ name +:+ "/" +:+ kind +:+ "/" +:+ secret in
  reWHIPWHEPNoID path = None
  /\ reWHIPWHEPWithID path = Some (name, kind, secret).
Proof.
  intros Hn Hnlf Hns Hk Hs Hslf Hsns Hw1 Hw2 path. subst path. split.
  - destruct (reWHIPWHEPNoID _) as [[n k]|] eqn:E; [| reflexivity].
    apply reWHIPWHEPNoID_Some in E as (E & _ & _ & Hk').
    apply (inj (String.append "/")) in E.
    replace (name +:+ "/" +:+ kind +:+ "/" +:+ secret)
      with ((name +:+ "/" +:+ kind) +:+ "/" +:+ secret) in E
      by (now rewrite !append_assoc).
    apply last_segment_inj in E; try assumption.
    + destruct Hk' as [-> | ->]; congruence.
    + destruct Hk' as [-> | ->]; reflexivity.
  - unfold reWHIPWHEPWithID. rewrite stripPrefix_append.
    apply dotPlusLazy_first; try assumption.
    + rewrite append_nil_l. unfold Pattern.tailWithID.
      rewrite stripPrefix_append.
      assert (Pattern.whipOrWhep (kind +:+ "/" +:+ secret)
              = Some (kind, "/" +:+ secret)) as ->
          by (apply whipOrWhep_Some; auto).
      rewrite stripPrefix_append.
      rewrite <- (append_nil_r secret) at 1.
      apply dotPlusLazy_first; try assumption.
      * now rewrite append_nil_l.
      * intros p1 p2 _ _ Hp2. rewrite append_nil_r.
        destruct p2; [contradiction | reflexivity].
    + intros p1 p2 E _ Hp2. unfold Pattern.tailWithID.
      rewrite E, noSlash_append in Hns.
      apply andb_prop in Hns as [_ Hns].
      destruct p2 as [|c p2]; [contradiction |].
      simpl in Hns. apply andb_prop in Hns as [Hc _].
      apply negb_true_iff in Hc. apply Ascii.eqb_neq in Hc.
      destruct (stripPrefix "/" _) as [rest|] eqn:Es; [| reflexivity].
      apply stripPrefix_Some in Es. rewrite !append_cons in Es.
      injection Es as Es _. contradiction.
Qed.

(** ** Suffixes, slices and the last byte *)

Section SuffixFacts.

Lemma get_append_length (a b : string) (x : ascii) :
  String.get (String.length a) (a +:+ String x b) = Some x.
Proof.
  induction a as [|y a IH]; [reflexivity |].
  rewrite append_cons. simpl. exact IH.
Qed.

Lemma substring_append_l (a b : string) :
  String.substring 0 (String.length a) (a +:+ b) = a.
Proof.
  induction a as [|y a IH].
  - simpl. destruct b; reflexivity.
  - rewrite append_cons. simpl. now rewrite IH.
Qed.

Lemma substring_all (a : string) :
  String.substring 0 (String.length a) a = a.
Proof.
  rewrite <- (append_nil_r a) at 2. apply substring_append_l.
Qed.

Lemma substring_append_r (a b : string) :
  String.substring (String.length a) (String.length b) (a +:+ b) = b.
Proof.
  induction a as [|y a IH].
  - rewrite append_nil_l. apply substring_all.
  - rewrite append_cons. simpl. exact IH.
Qed.

Lemma substring_split (k : nat) (a : string) :
  (k <= String.length a)%nat ->
  a = String.substring 0 k a +:+ String.substring k (String.length a - k) a.
Proof.
  revert a. induction k as [|k IH]; intros a Hk.
  - simpl String.substring at 1.
    replace (String.substring 0 0 a) with "" by (destruct a; reflexivity).
    rewrite append_nil_l, Nat.sub_0_r. now rewrite substring_all.
  - destruct a as [|y a]; [simpl in Hk; lia |].
    simpl in *. rewrite append_cons. f_equal. apply IH. lia.
Qed.

Lemma HasSuffix_append (t x : string) : HasSuffix (t +:+ x) x = true.
Proof.
  unfold HasSuffix, slice. rewrite len_append.
  pose proof (len_nonneg t). pose proof (len_nonneg x).
  replace (len x <=? len t + len x) with true by lia.
  replace (0 <=? len t + len x - len x) with true by lia.
  replace (len t + len x - len x <=? len t + len x) with true by lia.
  replace (len t + len x <=? len t + len x) with true by lia.
  simpl.
  replace (Z.to_nat (len t + len x - len x)) with (String.length t)
    by (unfold len; lia).
  replace (Z.to_nat (len t + len x - (len t + len x - len x)))
    with (String.length x) by (unfold len; lia).
  rewrite substring_append_r. apply String.eqb_refl.
Qed.

Lemma HasSuffix_true (a x : string) :
  HasSuffix a x = true -> exists t, a = t +:+ x.
Proof.
  unfold HasSuffix, slice. intros H.
  apply andb_prop in H as [Hle H]. apply Z.leb_le in Hle.
  destruct ((0 <=? len a - len x) && (len a - len x <=? len a)
            && (len a <=? len a)); [| discriminate].
  apply String.eqb_eq in H.
  exists (String.substring 0 (Z.to_nat (len a - len x)) a).
  rewrite <- H at 2.
  replace (Z.to_nat (len a - (len a - len x)))
    with (String.length a - Z.to_nat (len a - len x))%nat
    by (unfold len in *; lia).
  apply substring_split. unfold len in *. lia.
Qed.

(** [s[len(s)-1]] of a concatenation is the last byte of its second
    part. *)
Lemma index_last_append (a b : string) :
  b <> "" ->
  index (a +:+ b) (len (a +:+ b) - 1) = index b (len b - 1).
Proof.
  intros Hb. induction a as [|y a IH]; [reflexivity |].
  rewrite append_cons, <- IH. unfold index.
  rewrite len_cons.
  assert (1 <= len (a +:+ b)).
  { rewrite len_append. pose proof (len_nonneg a).
    destruct b; [contradiction |]. rewrite len_cons.
    pose proof (len_nonneg b). lia. }
  replace (0 <=? 1 + len (a +:+ b) - 1) with true by lia.
  replace (0 <=? len (a +:+ b) - 1) with true by lia.
  replace (Z.to_nat (1 + len (a +:+ b) - 1))
    with (S (Z.to_nat (len (a +:+ b) - 1))) by lia.
  reflexivity.
Qed.

Lemma slice_middle (x : ascii) (name rest : string) :
  slice (String x (name +:+ rest)) 1 (len (String x (name +:+ rest)) - len rest)
  = Some name.
Proof.
  unfold slice. rewrite len_cons, len_append.
  pose proof (len_nonneg name). pose proof (len_nonneg rest).
  replace (1 <=? 1 + (len name + len rest) - len rest) with true by lia.
  replace (1 + (len name + len rest) - len rest <=? 1 + (len name + len rest))
    with true by lia.
  simpl.
  replace (Z.to_nat (1 + (len name + len rest) - len rest - 1))
    with (String.length name) by (unfold len; lia).
  now rewrite substring_append_l.
Qed.

End SuffixFacts.

(** ** Running the handlers *)

(** The plumbing of the monad and of the writer, unfolded; the handlers
    themselves are unfolded one at a time, once the dispatch is settled. *)
Ltac unfold_plumbing :=
  lazy beta iota zeta delta
    [server_Log Header_Set Header_assign Writer_WriteHeader Writer_Write URL_Path_append
     sleep emit call modifyWriter getRequest checked panic
     mbind handler_bind mret handler_ret bind ret newContext newWriter
     Request_ Writer world events Header status written body
     finalContext returned];
  simpl.

Ltac dispatch := unfold serve, onRequest; unfold_plumbing.

(** ** What every handler keeps of the response writer *)

Section Keeps.
Context {W : Type}.
Variable P : ResponseWriter -> Prop.

Lemma keeps_ret {A : Type} (a : A) : keeps (W := W) P (ret a).
Proof. intros c H. exact H. Qed.

Lemma keeps_panic {A : Type} : keeps (W := W) P (@panic W A).
Proof. intros c H. exact H. Qed.

Lemma keeps_bind {A B : Type} (m : Handler W A) (k : A -> Handler W B) :
  keeps P m -> (forall a, keeps P (k a)) -> keeps (W := W) P (m ≫= k).
Proof.
  intros Hm Hk c H. unfold mbind, handler_bind, bind.
  specialize (Hm c H). destruct (m c) as [a c'|c']; simpl in *.
  - now apply Hk.
  - exact Hm.
Qed.

Lemma keeps_checked {A : Type} (o : option A) : keeps (W := W) P (checked o).
Proof. destruct o; [apply keeps_ret | apply keeps_panic]. Qed.

Lemma keeps_getRequest : keeps (W := W) P getRequest.
Proof. intros c H. exact H. Qed.

Lemma keeps_call {A : Type} (e : Event) (f : W -> A * W) : keeps (W := W) P (call e f).
Proof. intros c H. unfold call. destruct (f (world c)). exact H. Qed.

Lemma keeps_emit (e : Event) : keeps (W := W) P (emit e).
Proof. intros c H. exact H. Qed.

Lemma keeps_URL_Path_append (suffix : string) : keeps (W := W) P (URL_Path_append suffix).
Proof. intros c H. exact H. Qed.

Lemma keeps_modifyWriter (f : ResponseWriter -> ResponseWriter) :
  (forall w, P w -> P (f w)) -> keeps (W := W) P (modifyWriter f).
Proof. intros Hf c H. simpl. now apply Hf. Qed.

End Keeps.

Section CORS.
Context {W : Type}.
Variable pkg : Package.
Variable s : webRTCHTTPServer W.

Lemma cors_Header_Set (key value : string) :
  key <> "Access-Control-Allow-Origin" ->
  key <> "Access-Control-Allow-Credentials" ->
  keeps (W := W) (cors s) (Header_Set key value).
Proof.
  intros H1 H2. apply keeps_modifyWriter. intros w [Ho Hc].
  unfold cors, http.Set_. simpl. now rewrite !lookup_insert_ne.
Qed.

Lemma cors_Header_assign (key : string) (values : list string) :
  key <> "Access-Control-Allow-Origin" ->
  key <> "Access-Control-Allow-Credentials" ->
  keeps (W := W) (cors s) (Header_assign key values).
Proof.
  intros H1 H2. apply keeps_modifyWriter. intros w [Ho Hc].
  unfold cors, http.Assign. simpl. now rewrite !lookup_insert_ne.
Qed.

Lemma cors_WriteHeader (code : Z) : keeps (W := W) (cors s) (Writer_WriteHeader code).
Proof.
  apply keeps_modifyWriter. intros w H. exact H.
Qed.

Lemma cors_Write (data : string) : keeps (W := W) (cors s) (Writer_Write data).
Proof. apply keeps_modifyWriter. intros w H. exact H. Qed.

Ltac keeps_step :=
  lazymatch goal with
  | |- keeps _ (mbind _ _) => apply keeps_bind; [| intros ?]
  | |- keeps _ (ret _) => apply keeps_ret
  | |- keeps _ panic => apply keeps_panic
  | |- keeps _ (checked _) => apply keeps_checked
  | |- keeps _ getRequest => apply keeps_getRequest
  | |- keeps _ (call _ _) => apply keeps_call
  | |- keeps _ (emit _) => apply keeps_emit
  | |- keeps _ (sleep _) => apply keeps_emit
  | |- keeps _ (server_Log _ _ _ _) => apply keeps_call
  | |- keeps _ (URL_Path_append _) => apply keeps_URL_Path_append
  | |- keeps _ (Writer_WriteHeader _) => apply cors_WriteHeader
  | |- keeps _ (Writer_Write _) => apply cors_Write
  | |- keeps _ (Header_Set _ _) => apply cors_Header_Set; discriminate
  | |- keeps _ (Header_assign _ _) => apply cors_Header_assign; discriminate
  | |- keeps _ (match ?x with _ => _ end) => destruct x
  end.

Lemma cors_checkAuthOutsideSession (path : string) (publish : bool) :
  keeps (cors s) (checkAuthOutsideSession pkg s path publish).
Proof.
  unfold checkAuthOutsideSession. repeat keeps_step.
Qed.

Lemma cors_onWHIPOptions (path : string) (publish : bool) :
  keeps (cors s) (onWHIPOptions pkg s path publish).
Proof.
  unfold onWHIPOptions.
  apply keeps_bind; [apply cors_checkAuthOutsideSession | intros ok].
  repeat keeps_step.
Qed.

Lemma cors_onWHIPPost (path : string) (publish : bool) :
  keeps (cors s) (onWHIPPost pkg s path publish).
Proof. unfold onWHIPPost. repeat keeps_step. Qed.

Lemma cors_onWHIPPatch (rawSecret : string) :
  keeps (cors s) (onWHIPPatch pkg s rawSecret).
Proof. unfold onWHIPPatch. repeat keeps_step. Qed.

Lemma cors_onWHIPDelete (rawSecret : string) :
  keeps (cors s) (onWHIPDelete pkg s rawSecret).
Proof. unfold onWHIPDelete. repeat keeps_step. Qed.

Lemma cors_onPage (path : string) (publish : bool) :
  keeps (cors s) (onPage pkg s path publish).
Proof.
  unfold onPage.
  apply keeps_bind; [apply cors_checkAuthOutsideSession | intros ok].
  repeat keeps_step.
Qed.

(** C8. Whatever the method, the path and the outcome, the response
    writer the handler leaves behind carries
    [Access-Control-Allow-Origin] with the configured origin as its one
    value and [Access-Control-Allow-Credentials: true]. *)
Theorem every_response_carries_cors_headers (r : Request) (w : W) :
  let c := finalContext (serve pkg s r w) in
  Header (Writer c) !! "Access-Control-Allow-Origin" = Some [allowOrigin s]
  /\ Header (Writer c) !! "Access-Control-Allow-Credentials" = Some ["true"].
Proof.
  unfold serve, onRequest.
  set (rest := mbind _ getRequest).
  assert (keeps (cors s) rest) as Hrest.
  { subst rest.
    apply keeps_bind; [apply keeps_getRequest | intros r0].
    destruct (_ && _); [repeat keeps_step |].
    destruct (reWHIPWHEPNoID _) as [[m1 m2]|].
    { destruct (String.eqb _ _); [apply cors_onWHIPOptions |].
      destruct (String.eqb _ _); [apply cors_onWHIPPost |].
      repeat keeps_step. }
    destruct (reWHIPWHEPWithID _) as [[[m1 m2] m3]|].
    { destruct (String.eqb _ _); [apply cors_onWHIPPatch |].
      destruct (String.eqb _ _); [apply cors_onWHIPDelete |].
      repeat keeps_step. }
    destruct (String.eqb _ _); [| apply keeps_ret].
    destruct (String.eqb _ _); [apply keeps_ret |].
    destruct (_ <=? _); [| apply keeps_ret].
    destruct (HasSuffix _ _).
    { apply keeps_bind; [apply keeps_checked | intros name].
      apply cors_onPage. }
    apply keeps_bind; [apply keeps_checked | intros last].
    destruct (negb _); [repeat keeps_step |].
    apply keeps_bind; [apply keeps_checked | intros name].
    apply cors_onPage. }
  set (w2 := {| Header :=
                  http.Set_ (http.Set_ ∅ "Access-Control-Allow-Origin" (allowOrigin s))
                            "Access-Control-Allow-Credentials" "true";
                status := None; written := false; body := "" |}).
  change (cors s (Writer (finalContext (rest (mkContext r w2 w []))))).
  apply Hrest. unfold cors, w2, Writer, Header, http.Set_. split.
  - rewrite lookup_insert_ne by discriminate. apply lookup_insert_eq.
  - apply lookup_insert_eq.
Qed.

End CORS.

(** Reads a header out of a chain of [Header.Set]. *)
Ltac header_lookup :=
  unfold http.Set_, http.Assign;
  repeat first
    [ rewrite lookup_insert_eq
    | rewrite lookup_insert_ne by discriminate ];
  rewrite ?lookup_empty; try reflexivity.

Section Dispatch.
Context {W : Type}.
Variable pkg : Package.
Variable s : webRTCHTTPServer W.

(** C7. A GET, HEAD or PUT whose path the endpoint pattern matches,
    that is a path [/<name>/whip] or [/<name>/whep], is answered 405. *)
Theorem whip_endpoint_get_head_put_405 (r : Request) (w : W) :
  is_Some (reWHIPWHEPNoID (Path (ReqURL r))) ->
  Method r = "GET" \/ Method r = "HEAD" \/ Method r = "PUT" ->
  returned (serve pkg s r w) = true
  /\ status (Writer (finalContext (serve pkg s r w))) = Some 405.
Proof.
  intros [[name kind] Hre] Hm.
  dispatch. rewrite Hre.
  destruct Hm as [-> | [-> | ->]]; simpl; auto.
Qed.

(** C4, amended. An OPTIONS request whose
    [Access-Control-Request-Method] header reads non-empty, that is
    whose [Header.Get] is not the empty string, is answered as a
    preflight: 204 with the allowed methods and headers, no [Link]
    header, and not one call into the path manager or the parent.  When
    the header reads empty, because it is absent or because it is there
    with an empty value, an OPTIONS request to a WHIP/WHEP endpoint
    starts with the authentication call.  So what tells the two
    behaviours apart is whether the header reads non-empty, not whether
    it is present. *)
Theorem options_preflight_iff_request_method_header (r : Request) (w : W) :
  Method r = "OPTIONS" ->
  let o := serve pkg s r w in
  let c := finalContext o in
  (http.Get (ReqHeader r) "Access-Control-Request-Method" <> "" ->
     returned o = true
     /\ status (Writer c) = Some 204
     /\ Header (Writer c) !! "Access-Control-Allow-Methods" = Some [allowMethods]
     /\ Header (Writer c) !! "Access-Control-Allow-Headers" = Some [allowHeaders]
     /\ Header (Writer c) !! "Link" = None
     /\ Header (Writer c) !! "WWW-Authenticate" = None
     /\ events c = []
     /\ world c = w)
  /\ (http.Get (ReqHeader r) "Access-Control-Request-Method" = "" ->
      forall name kind,
        reWHIPWHEPNoID (Path (ReqURL r)) = Some (name, kind) ->
        exists rest,
          events c
          = EvGetConfForPath (accessRequestOf pkg r name (String.eqb kind "whip"))
              :: rest).
Proof.
  intros Hm o c. subst c o. split.
  - intros Hh. apply String.eqb_neq in Hh.
    dispatch. rewrite Hm, Hh. simpl.
    split_and!; header_lookup.
  - intros Hh name kind Hre.
    dispatch. rewrite Hm, Hh, Hre. simpl.
    unfold onWHIPOptions, checkAuthOutsideSession. unfold_plumbing. simpl.
    destruct (BasicAuth pkg r) as [[user pass] has].
    destruct (getConfForPath _ _ _) as [res w1].
    destruct (cr_err res) as [[message|text]|]; simpl.
    + destruct has; simpl; eauto.
    + eauto.
    + destruct (generateICEServers w1) as [[servers [e|]] w2]; simpl; eauto.
Qed.


End Dispatch.

Section Endpoint.
Context {W : Type}.
Variable pkg : Package.
Variable s : webRTCHTTPServer W.

(** C5, amended. An OPTIONS request without
    [Access-Control-Request-Method] to a WHIP/WHEP endpoint that passes
    authentication is answered 204 with the allowed methods and the
    marshalled ICE servers in [Link], provided the parent produces its
    ICE servers; when it fails to, the answer is 500 and carries
    neither header. *)
Theorem options_204_when_ice_servers_generated (r : Request) (w : W)
        (name kind : string) :
  Method r = "OPTIONS" ->
  http.Get (ReqHeader r) "Access-Control-Request-Method" = "" ->
  reWHIPWHEPNoID (Path (ReqURL r)) = Some (name, kind) ->
  let auth := getConfForPath (pathManager_ s)
                (accessRequestOf pkg r name (String.eqb kind "whip")) w in
  cr_err auth.1 = None ->
  let ice := @generateICEServers W (parent s) auth.2 in
  let o := serve pkg s r w in
  let c := finalContext o in
  returned o = true
  /\ match ice.1.2 with
     | None =>
         status (Writer c) = Some 204
         /\ Header (Writer c) !! "Access-Control-Allow-Methods"
            = Some [allowMethods]
         /\ Header (Writer c) !! "Link"
            = Some (LinkHeaderMarshal pkg ice.1.1)
     | Some _ =>
         status (Writer c) = Some 500
         /\ Header (Writer c) !! "Access-Control-Allow-Methods" = None
         /\ Header (Writer c) !! "Link" = None
     end.
Proof.
  intros Hm Hh Hre auth Hauth ice o c. subst c o ice auth.
  dispatch. rewrite Hm, Hh, Hre. simpl.
  unfold onWHIPOptions, checkAuthOutsideSession. unfold_plumbing. simpl.
  destruct (BasicAuth pkg r) as [[user pass] has].
  destruct (getConfForPath _ _ _) as [res w1]. simpl in *.
  rewrite Hauth. simpl.
  destruct (generateICEServers w1) as [[servers [e|]] w2]; simpl;
    split_and!; header_lookup.
Qed.

(** C2, amended. A POST to a WHIP/WHEP endpoint whose [Content-Type] is
    not [application/sdp] is answered 400 and the parent is never
    called.  With that content type, a readable body, an offer the
    parent accepts and ICE servers the parent produces, the answer is
    201 with [Content-Type: application/sdp], [ETag: *],
    [Accept-Patch: application/trickle-ice-sdpfrag], the SDP answer as
    body, and [Location] equal to [/<name>/<kind>/<secret>] followed by
    [?] and the query string of the request when it has one. *)
Theorem post_offer_201_with_location (r : Request) (w : W)
        (name kind : string) :
  Method r = "POST" ->
  reWHIPWHEPNoID (Path (ReqURL r)) = Some (name, kind) ->
  let o := serve pkg s r w in
  let c := finalContext o in
  (http.Get (ReqHeader r) "Content-Type" <> "application/sdp" ->
     returned o = true /\ status (Writer c) = Some 400
     /\ events c = [] /\ world c = w)
  /\ (http.Get (ReqHeader r) "Content-Type" = "application/sdp" ->
      forall offer sx,
        Body r = Some offer ->
        let req := newSessionReqOf pkg r name (String.eqb kind "whip") offer in
        let res := @newSession W (parent s) req w in
        nr_err res.1 = None ->
        nr_sx res.1 = Some sx ->
        let ice := @generateICEServers W (parent s) res.2 in
        ice.1.2 = None ->
        returned o = true
        /\ status (Writer c) = Some 201
        /\ Header (Writer c) !! "Content-Type" = Some ["application/sdp"]
        /\ Header (Writer c) !! "ETag" = Some ["*"]
        /\ Header (Writer c) !! "Accept-Patch"
           = Some ["application/trickle-ice-sdpfrag"]
        /\ Header (Writer c) !! "Location"
           = Some [("/" +:+ name +:+ "/" +:+ kind +:+ "/"
                        +:+ uuid_String pkg (sx_secret sx))
                   +:+ (if String.eqb (RawQuery (ReqURL r)) "" then ""
                        else "?" +:+ RawQuery (ReqURL r))]
        /\ body (Writer c) = nr_answer res.1
        /\ events c = [EvNewSession req; EvGenerateICEServers]).
Proof.
  intros Hm Hre o c. subst c o. split.
  - intros Hct. apply String.eqb_neq in Hct.
    dispatch. rewrite Hm, Hre. simpl.
    unfold onWHIPPost. unfold_plumbing. simpl. rewrite Hct. simpl. auto.
  - intros Hct offer sx Hbody req res Herr Hsx ice Hice.
    subst ice res req.
    apply reWHIPWHEPNoID_Some in Hre as Hpath. destruct Hpath as [Hpath _].
    dispatch. rewrite Hm, Hre. simpl.
    unfold onWHIPPost. unfold_plumbing. simpl.
    rewrite Hct, Hbody. simpl.
    destruct (newSession _ w) as [res w1]. simpl in *.
    rewrite Herr. simpl.
    destruct (generateICEServers w1) as [[servers e] w2]. simpl in *.
    subst e. simpl. rewrite Hsx. simpl.
    split_and!; header_lookup.
    unfold relativeLocation. simpl. rewrite Hpath.
    rewrite !append_assoc.
    destruct (String.eqb (RawQuery (ReqURL r)) ""); simpl.
    + now rewrite append_nil_r.
    + reflexivity.
Qed.

End Endpoint.

Section Session.
Context {W : Type}.
Variable pkg : Package.
Variable s : webRTCHTTPServer W.


End Session.

Section Authentication.
Context {W : Type}.
Variable pkg : Package.
Variable s : webRTCHTTPServer W.

(** C1, amended. On an OPTIONS request to a WHIP/WHEP endpoint for
    which the path manager reports an authentication error the answer
    is 401 with an empty body.  When the request carries credentials
    the handler first pauses for [webrtcPauseAfterAuthError], at least
    one second when the constant is, and sets no [WWW-Authenticate].
    When it carries none there is no pause at all and the answer has
    [WWW-Authenticate: Basic realm="mediamtx"]; that header is the only
    difference between the two answers. *)
Theorem auth_failure_pause_only_with_credentials (r : Request) (w : W)
        (name kind message : string) :
  Second <= webrtcPauseAfterAuthError pkg ->
  Method r = "OPTIONS" ->
  http.Get (ReqHeader r) "Access-Control-Request-Method" = "" ->
  reWHIPWHEPNoID (Path (ReqURL r)) = Some (name, kind) ->
  cr_err (getConfForPath (pathManager_ s)
            (accessRequestOf pkg r name (String.eqb kind "whip")) w).1
  = Some (errAuthentication message) ->
  let o := serve pkg s r w in
  let c := finalContext o in
  let plain : http.Header :=
    http.Set_ (http.Set_ ∅ "Access-Control-Allow-Origin" (allowOrigin s))
              "Access-Control-Allow-Credentials" "true" in
  returned o = true
  /\ status (Writer c) = Some 401
  /\ body (Writer c) = ""
  /\ ((BasicAuth pkg r).2 = true ->
       paused (events c) = webrtcPauseAfterAuthError pkg
       /\ Second <= paused (events c)
       /\ Header (Writer c) = plain
       /\ Header (Writer c) !! "WWW-Authenticate" = None)
  /\ ((BasicAuth pkg r).2 = false ->
       paused (events c) = 0
       /\ Header (Writer c) = http.Set_ plain "WWW-Authenticate" basicRealm).
Proof.
  intros Hpause Hm Hh Hre Hauth o c plain. subst c o plain.
  dispatch. rewrite Hm, Hh, Hre. simpl.
  unfold onWHIPOptions, checkAuthOutsideSession. unfold_plumbing. simpl.
  destruct (BasicAuth pkg r) as [[user pass] has].
  destruct (getConfForPath _ _ _) as [res w1]. simpl in *.
  rewrite Hauth. simpl.
  destruct has; simpl; split_and!; try reflexivity;
    intros [=]; rewrite ?Z.add_0_r; split_and!; try lia; header_lookup.
Qed.

End Authentication.

Section Static.
Context {W : Type}.
Variable pkg : Package.
Variable s : webRTCHTTPServer W.

Lemma string_snoc (a : string) :
  a <> "" -> exists t x, a = t +:+ String x "".
Proof.
  induction a as [|y a IH]; [contradiction |]. intros _.
  destruct a as [|z a].
  - exists "", y. reflexivity.
  - destruct IH as (t & x & E); [discriminate |].
    exists (String y t), x. rewrite append_cons. now rewrite <- E.
Qed.

Lemma index_last_snoc (t : string) (x : ascii) :
  index (t +:+ String x "") (len (t +:+ String x "") - 1) = Some x.
Proof. rewrite index_last_append by discriminate. reflexivity. Qed.

(** C9, amended. A GET whose path matches neither WHIP/WHEP pattern
    (it is no endpoint and no session URL), has at
    least three bytes, is not [/favicon.ico] and ends neither in
    [/publish] nor in [/] is answered 301 with [Location] equal to the
    path followed by [/] and, when the request has a query string, by
    [?] and that string; nothing is written to the body and neither
    the path manager nor the parent is called. *)
Theorem get_without_trailing_slash_redirects (r : Request) (w : W) :
  Method r = "GET" ->
  reWHIPWHEPNoID (Path (ReqURL r)) = None ->
  reWHIPWHEPWithID (Path (ReqURL r)) = None ->
  3 <= len (Path (ReqURL r)) ->
  Path (ReqURL r) <> "/favicon.ico" ->
  (forall t, Path (ReqURL r) <> t +:+ "/publish") ->
  (forall t, Path (ReqURL r) <> t +:+ "/") ->
  let o := serve pkg s r w in
  let c := finalContext o in
  returned o = true
  /\ status (Writer c) = Some 301
  /\ Header (Writer c) !! "Location"
     = Some [(Path (ReqURL r) +:+ "/")
             +:+ (if String.eqb (RawQuery (ReqURL r)) "" then ""
                  else "?" +:+ RawQuery (ReqURL r))]
  /\ body (Writer c) = ""
  /\ written (Writer c) = false
  /\ Header (Writer c) !! "Content-Type" = None
  /\ events c = [].
Proof.
  intros Hm Hno Hwith Hlen Hfav Hpub Hslash o c. subst c o.
  dispatch. rewrite Hm, Hno, Hwith. simpl.
  apply String.eqb_neq in Hfav. rewrite Hfav.
  replace (3 <=? len (Path (ReqURL r))) with true by lia.
  destruct (HasSuffix (Path (ReqURL r)) "/publish") eqn:Hs.
  { apply HasSuffix_true in Hs as [t E]. now apply Hpub in E. }
  destruct (string_snoc (Path (ReqURL r))) as (t & x & E).
  { intros E. rewrite E in Hlen. unfold len in Hlen. simpl in Hlen. lia. }
  assert (index (Path (ReqURL r)) (len (Path (ReqURL r)) - 1) = Some x)
    as Hidx by (rewrite E; apply index_last_snoc).
  rewrite Hidx.
  destruct (Ascii.eqb x "/") eqn:Hx.
  { apply Ascii.eqb_eq in Hx. subst x. now apply Hslash in E. }
  unfold_plumbing.
  split_and!; header_lookup.
  unfold relativeLocation. simpl.
  destruct (String.eqb (RawQuery (ReqURL r)) ""); simpl.
  - now rewrite append_nil_r.
  - reflexivity.
Qed.

End Static.

Section Pages.
Context {W : Type}.
Variable pkg : Package.
Variable s : webRTCHTTPServer W.

Lemma append_nonempty_r (a b : string) : b <> "" -> a +:+ b <> "".
Proof.
  intros Hb E. apply (f_equal String.length) in E.
  rewrite append_length in E. destruct b; [contradiction |].
  simpl in E. lia.
Qed.

(** The last byte of a path the endpoint pattern matches is [p]. *)
Lemma reWHIPWHEPNoID_last (path : string) :
  is_Some (reWHIPWHEPNoID path) ->
  index path (len path - 1) = Some "p"%char.
Proof.
  intros [[name kind] H].
  apply reWHIPWHEPNoID_Some in H as (-> & _ & _ & Hk).
  assert (kind <> "") by (destruct Hk as [-> | ->]; discriminate).
  rewrite !index_last_append; auto using append_nonempty_r.
  destruct Hk as [-> | ->]; reflexivity.
Qed.

Lemma reWHIPWHEPNoID_None_last (path : string) (x : ascii) :
  index path (len path - 1) = Some x -> x <> "p"%char ->
  reWHIPWHEPNoID path = None.
Proof.
  intros Hx Hp. destruct (reWHIPWHEPNoID path) eqn:E; [| reflexivity].
  assert (is_Some (reWHIPWHEPNoID path)) as Hs by (rewrite E; eauto).
  apply reWHIPWHEPNoID_last in Hs. congruence.
Qed.

Lemma HasSuffix_false_last (path suffix : string) (x y : ascii) :
  index path (len path - 1) = Some x ->
  suffix <> "" ->
  index suffix (len suffix - 1) = Some y ->
  x <> y ->
  HasSuffix path suffix = false.
Proof.
  intros Hx Hne Hy Hxy. destruct (HasSuffix path suffix) eqn:E; [| reflexivity].
  apply HasSuffix_true in E as [t ->].
  rewrite index_last_append in Hx by assumption. congruence.
Qed.

(** A GET of [/<name>/publish], or of [/<name>/] with a non-empty
    name, serves a page only through [onPage], which first runs
    [checkAuthOutsideSession], the check of the WHIP/WHEP OPTIONS
    handler.  When the path manager lets the request in, the page is
    served with status 200, [Content-Type: text/html] and
    [Cache-Control: max-age=3600]; on an authentication error the answer
    is 401, with the [WWW-Authenticate] challenge exactly when the
    request carried no credentials; on any other error it is 404.  In
    both failures nothing is written to the body.  When the path happens
    to be a WHIP/WHEP session URL the request goes to the session
    branch, which serves no page at all. *)
Lemma onPage_routed (r : Request) (w : W)
        (name : string) (publish : bool) :
  Method r = "GET" ->
  (publish = true /\ Path (ReqURL r) = "/" +:+ name +:+ "/publish")
  \/ (publish = false /\ name <> "" /\ Path (ReqURL r) = "/" +:+ name +:+ "/") ->
  let req := accessRequestOf pkg r name publish in
  let auth := getConfForPath (pathManager_ s) req w in
  let o := serve pkg s r w in
  let c := finalContext o in
  returned o = true
  /\ match reWHIPWHEPWithID (Path (ReqURL r)) with
     | Some _ =>
         status (Writer c) = None
         /\ body (Writer c) = "" /\ written (Writer c) = false
         /\ events c = []
     | None =>
         (exists rest, events c = EvGetConfForPath req :: rest)
         /\ match cr_err auth.1 with
            | None =>
                status (Writer c) = Some 200
                /\ Header (Writer c) !! "Content-Type" = Some ["text/html"]
                /\ Header (Writer c) !! "Cache-Control" = Some ["max-age=3600"]
                /\ body (Writer c)
                   = (if publish then webrtcPublishIndex pkg
                      else webrtcReadIndex pkg)
            | Some (errAuthentication _) =>
                status (Writer c) = Some 401
                /\ body (Writer c) = "" /\ written (Writer c) = false
                /\ Header (Writer c) !! "WWW-Authenticate"
                   = (if (BasicAuth pkg r).2 then None else Some [basicRealm])
            | Some (errOther _) =>
                status (Writer c) = Some 404
                /\ body (Writer c) = "" /\ written (Writer c) = false
                /\ Header (Writer c) !! "WWW-Authenticate" = None
            end
     end.
Proof.
  intros Hm Hshape req auth o c. subst c o auth req.
  assert (exists x, index (Path (ReqURL r)) (len (Path (ReqURL r)) - 1) = Some x
                    /\ (x = "h" \/ x = "/")%char) as (x & Hlast & Hx).
  { destruct Hshape as [(_ & ->) | (_ & _ & ->)].
    - exists "h"%char. split; [| auto].
      rewrite !index_last_append; auto using append_nonempty_r; discriminate.
    - exists "/"%char. split; [| auto].
      rewrite !index_last_append; auto using append_nonempty_r; discriminate. }
  assert (reWHIPWHEPNoID (Path (ReqURL r)) = None) as Hno.
  { apply (reWHIPWHEPNoID_None_last _ x Hlast).
    destruct Hx as [-> | ->]; discriminate. }
  assert (String.eqb (Path (ReqURL r)) "/favicon.ico" = false) as Hfav.
  { apply String.eqb_neq. intros E. rewrite E in Hlast.
    vm_compute in Hlast. destruct Hx as [-> | ->]; discriminate. }
  destruct (reWHIPWHEPWithID (Path (ReqURL r))) as [[[m1 m2] m3]|] eqn:Hwith.
  { dispatch. rewrite Hm, Hno, Hwith. simpl. auto. }
  dispatch. rewrite Hm, Hno, Hwith, Hfav. simpl.
  destruct Hshape as [(-> & Hp) | (-> & Hne & Hp)].
  - assert ((3 <=? len (Path (ReqURL r))) = true) as Hlen.
    { rewrite Hp, !len_append. pose proof (len_nonneg name).
      change (len "/") with 1. change (len "/publish") with 8. lia. }
    rewrite Hlen.
    assert (HasSuffix (Path (ReqURL r)) "/publish" = true) as Hs.
    { rewrite Hp, <- append_assoc. apply HasSuffix_append. }
    rewrite Hs.
    assert (slice (Path (ReqURL r)) 1 (len (Path (ReqURL r)) - len "/publish")
            = Some name) as Hsl.
    { rewrite Hp.
      change ("/" +:+ name +:+ "/publish")
        with (String "/" (name +:+ "/publish")).
      apply slice_middle. }
    rewrite Hsl.
    unfold onPage, checkAuthOutsideSession. unfold_plumbing.
    destruct (BasicAuth pkg r) as [[user pass] has].
    destruct (getConfForPath _ _ _) as [res w1]. simpl.
    destruct (cr_err res) as [[message|text]|]; simpl.
    + destruct has; simpl; split_and!; header_lookup; eauto.
    + split_and!; header_lookup; eauto.
    + split_and!; header_lookup; eauto.
  - assert ((3 <=? len (Path (ReqURL r))) = true) as Hlen.
    { rewrite Hp, !len_append. destruct name; [contradiction |].
      rewrite !len_cons. pose proof (len_nonneg name).
      change (len "") with 0. lia. }
    rewrite Hlen.
    assert (x = "/"%char) as ->.
    { rewrite Hp in Hlast.
      rewrite !index_last_append in Hlast
        by (auto using append_nonempty_r; discriminate).
      vm_compute in Hlast. congruence. }
    assert (HasSuffix (Path (ReqURL r)) "/publish" = false) as Hs.
    { apply (HasSuffix_false_last _ _ "/"%char "h"%char Hlast);
        [discriminate | reflexivity | discriminate]. }
    rewrite Hs, Hlast.
    assert (slice (Path (ReqURL r)) 1 (len (Path (ReqURL r)) - 1) = Some name)
      as Hsl.
    { rewrite Hp.
      change ("/" +:+ name +:+ "/") with (String "/" (name +:+ "/")).
      apply (slice_middle "/" name "/"). }
    unfold_plumbing. rewrite Hsl.
    unfold onPage, checkAuthOutsideSession. unfold_plumbing.
    destruct (BasicAuth pkg r) as [[user pass] has].
    destruct (getConfForPath _ _ _) as [res w1]. simpl.
    destruct (cr_err res) as [[message|text]|]; simpl.
    + destruct has; simpl; split_and!; header_lookup; eauto.
    + split_and!; header_lookup; eauto.
    + split_and!; header_lookup; eauto.
Qed.

End Pages.

(** ** The theorems at work on the concrete server *)

Section Witnesses.
Import Fixture.

Lemma whip_endpoint_get_head_put_405_witness :
  status (Writer (finalContext (serve pkg server getEndpoint []))) = Some 405.
Proof.
  apply (whip_endpoint_get_head_put_405 pkg server getEndpoint []).
  - vm_compute. eauto.
  - left. reflexivity.
Defined.

Lemma options_preflight_iff_request_method_header_witness :
  status (Writer (finalContext (serve pkg server preflight []))) = Some 204
  /\ events (finalContext (serve pkg server preflight [])) = [].
Proof.
  destruct (options_preflight_iff_request_method_header
              pkg server preflight [] eq_refl) as [Hpre _].
  destruct Hpre as (_ & Hs & _ & _ & _ & _ & He & _).
  - vm_compute. discriminate.
  - split; [exact Hs | exact He].
Defined.

Lemma options_204_when_ice_servers_generated_witness :
  Header (Writer (finalContext (serve pkg server optionsGoodCredentials [])))
    !! "Link"
  = Some (LinkHeaderMarshal pkg [stun]).
Proof.
  destruct (options_204_when_ice_servers_generated
              pkg server optionsGoodCredentials [] "cam1" "whip")
    as (_ & H).
  - reflexivity.
  - vm_compute. reflexivity.
  - vm_compute. reflexivity.
  - vm_compute. reflexivity.
  - destruct H as (_ & _ & H). exact H.
Defined.

Lemma post_offer_201_with_location_witness :
  status (Writer (finalContext (serve pkg server (postOffer "token=abc") [])))
  = Some 201
  /\ Header (Writer (finalContext (serve pkg server (postOffer "token=abc") [])))
       !! "Location"
     = Some ["/cam1/whip/3b241101-e2bb-4255-8caf-4136c566a962?token=abc"].
Proof.
  destruct (post_offer_201_with_location
              pkg server (postOffer "token=abc") [] "cam1" "whip")
    as [_ H].
  - reflexivity.
  - vm_compute. reflexivity.
  - destruct (H ltac:(vm_compute; reflexivity) "v=0 offer"
                {| sx_uuid := sessionID; sx_secret := sessionSecret |})
      as (_ & Hs & _ & _ & _ & Hl & _).
    + reflexivity.
    + vm_compute. reflexivity.
    + vm_compute. reflexivity.
    + vm_compute. reflexivity.
    + split; [exact Hs | exact Hl].
Defined.

Lemma auth_failure_pause_only_with_credentials_witness :
  Second <= paused (events (finalContext (serve pkg server optionsWrongCredentials [])))
  /\ Header (Writer (finalContext (serve pkg server optionsWrongCredentials [])))
       !! "WWW-Authenticate" = None.
Proof.
  destruct (auth_failure_pause_only_with_credentials
              pkg server optionsWrongCredentials [] "cam1" "whip"
              "authentication failed")
    as (_ & _ & _ & H & _).
  - vm_compute. discriminate.
  - reflexivity.
  - vm_compute. reflexivity.
  - vm_compute. reflexivity.
  - vm_compute. reflexivity.
  - destruct H as (_ & Hp & _ & Hh); [vm_compute; reflexivity |].
    split; [exact Hp | exact Hh].
Defined.

Lemma get_without_trailing_slash_redirects_witness :
  status (Writer (finalContext (serve pkg server getBare []))) = Some 301
  /\ Header (Writer (finalContext (serve pkg server getBare []))) !! "Location"
     = Some ["/cam1/?controls=0"].
Proof.
  destruct (get_without_trailing_slash_redirects pkg server getBare [])
    as (_ & Hs & Hl & _).
  - reflexivity.
  - vm_compute. reflexivity.
  - vm_compute. reflexivity.
  - vm_compute. discriminate.
  - discriminate.
  - intros t E. apply (f_equal (fun p => HasSuffix p "/publish")) in E.
    rewrite HasSuffix_append in E. vm_compute in E. discriminate.
  - intros t E. apply (f_equal (fun p => HasSuffix p "/")) in E.
    rewrite HasSuffix_append in E. vm_compute in E. discriminate.
  - split; [exact Hs | exact Hl].
Defined.

End Witnesses.

(** ** Where the code departs from the stated claims *)

Section Counterexamples.
Import Fixture.

(** C1 as stated fails: without credentials the authentication error is
    answered 401 at once, with no pause. *)
Lemma missing_credentials_401_without_pause :
  let c := finalContext (serve pkg server optionsNoCredentials []) in
  cr_err (getConfForPath paths
            (accessRequestOf pkg optionsNoCredentials "cam1" true) []).1
  = Some (errAuthentication "authentication failed")
  /\ status (Writer c) = Some 401
  /\ ~ (Second <= paused (events c)).
Proof.
  split_and!.
  - vm_compute. reflexivity.
  - vm_compute. reflexivity.
  - intros H. vm_compute in H. apply H. reflexivity.
Qed.

(** C2 as stated fails twice: an accepted offer is answered 500 when the
    parent cannot produce its ICE servers, and with a query string the
    [Location] is not [/<path>/whip/<secret>]. *)
Lemma accepted_offer_500_and_location_with_query :
  (nr_err (@newSession _ (parent serverNoICE)
             (newSessionReqOf pkg (postOffer "") "cam1" true "v=0 offer") []).1
   = None
   /\ status (Writer (finalContext (serve pkg serverNoICE (postOffer "") [])))
      <> Some 201)
  /\ (status (Writer (finalContext (serve pkg server (postOffer "token=abc") [])))
      = Some 201
      /\ Header (Writer (finalContext (serve pkg server (postOffer "token=abc") [])))
           !! "Location"
         <> Some ["/cam1/whip/" +:+ sessionSecretText]).
Proof.
  split_and!.
  - vm_compute. reflexivity.
  - vm_compute. discriminate.
  - vm_compute. reflexivity.
  - vm_compute. discriminate.
Qed.

(** C5 as stated fails: an authenticated OPTIONS is answered 500, with no
    [Link] header, when the parent cannot produce its ICE servers. *)
Lemma authenticated_options_500_without_ice_servers :
  let c := finalContext (serve pkg serverNoICE optionsGoodCredentials []) in
  cr_err (getConfForPath paths
            (accessRequestOf pkg optionsGoodCredentials "cam1" true) []).1
  = None
  /\ status (Writer c) = Some 500
  /\ status (Writer c) <> Some 204
  /\ Header (Writer c) !! "Link" = None.
Proof.
  split_and!.
  - vm_compute. reflexivity.
  - vm_compute. reflexivity.
  - vm_compute. discriminate.
  - vm_compute. reflexivity.
Qed.

(** C9 as stated fails: a GET of a session URL is not a WHIP/WHEP
    endpoint, is long enough, is not [/favicon.ico] and ends neither in
    [/publish] nor in [/], yet it is not redirected: the handler sets
    no status and no [Location]. *)
Lemma get_session_url_not_redirected :
  let r := request "GET" secretURL "" [] None in
  let c := finalContext (serve pkg server r []) in
  reWHIPWHEPNoID (Path (ReqURL r)) = None
  /\ 3 <= len (Path (ReqURL r))
  /\ Path (ReqURL r) <> "/favicon.ico"
  /\ HasSuffix (Path (ReqURL r)) "/publish" = false
  /\ HasSuffix (Path (ReqURL r)) "/" = false
  /\ status (Writer c) <> Some 301
  /\ Header (Writer c) !! "Location" = None.
Proof.
  split_and!.
  - vm_compute. reflexivity.
  - vm_compute. discriminate.
  - vm_compute. discriminate.
  - vm_compute. reflexivity.
  - vm_compute. reflexivity.
  - vm_compute. discriminate.
  - vm_compute. reflexivity.
Qed.

End Counterexamples.

(** ** Remarks on the router *)

Section Remarks.
Import Fixture.

(** A path that matches both patterns is an endpoint to the router:
    [/cam1/whip/whep] is the WHEP endpoint of path [cam1/whip], so a
    DELETE of it reaches no handler. *)
Example delete_on_endpoint_shaped_path :
  let r := request "DELETE" "/cam1/whip/whep" "" [] None in
  reWHIPWHEPNoID (Path (ReqURL r)) = Some ("cam1/whip", "whep")
  /\ reWHIPWHEPWithID (Path (ReqURL r)) = Some ("cam1", "whip", "whep")
  /\ status (Writer (finalContext (serve pkg server r []))) = None.
Proof. split_and!; vm_compute; reflexivity. Qed.

(** A PATCH with a well-formed secret the parent does not know is
    answered 400. *)
Example patch_unknown_secret_400 :
  let r := request "PATCH" ("/cam1/whip/" +:+ otherSecretText) ""
                   [("Content-Type", "application/trickle-ice-sdpfrag")]
                   (Some "a=ice-ufrag:EsAw") in
  status (Writer (finalContext (serve pkg server r [sessionSecretText])))
  = Some 400.
Proof. vm_compute. reflexivity. Qed.

(** The one run that panics: [/publish] alone makes the slice bounds
    [1:0]. *)
Example get_publish_alone_panics :
  returned (serve pkg server (request "GET" "/publish" "" [] None) []) = false.
Proof. vm_compute. reflexivity. Qed.

End Remarks.

(** * Further properties *)

(** ** The two patterns, exactly *)

Section Patterns.

Lemma append_prefix_split (a b a' b' : string) :
  a +:+ b = a' +:+ b' ->
  (String.length a' < String.length a)%nat ->
  exists p, p <> "" /\ a = a' +:+ p /\ b' = p +:+ b.
Proof.
  revert a. induction a' as [|x a' IH]; intros a E Hlen.
  - rewrite append_nil_l in E. exists a. rewrite append_nil_l.
    split_and!; [| reflexivity | congruence].
    intros ->. simpl in Hlen. lia.
  - destruct a as [|y a]; [simpl in Hlen; lia |].
    rewrite !append_cons in E. injection E as -> E.
    destruct (IH a E) as (p & Hp & -> & ->); [simpl in Hlen; lia |].
    exists p. rewrite append_cons. auto.
Qed.

(** A lazy [.+?] that succeeds has stopped at the first place where the
    rest of the pattern matches. *)
Lemma dotPlusLazy_Some_first {A : Type} (k : string -> string -> option A)
      (s acc : string) (r : A) :
  Pattern.dotPlusLazy k acc s = Some r ->
  exists pre post,
    s = pre +:+ post /\ pre <> "" /\ noLF pre = true
    /\ k (acc +:+ pre) post = Some r
    /\ forall p1 p2, pre = p1 +:+ p2 -> p1 <> "" -> p2 <> "" ->
                     k (acc +:+ p1) (p2 +:+ post) = None.
Proof.
  revert acc. induction s as [|c s IH]; intros acc; simpl; [discriminate |].
  destruct (Ascii.eqb c LF) eqn:Ec; [discriminate |].
  destruct (k (acc +:+ String c "") s) as [r'|] eqn:Ek.
  - intros [= ->]. exists (String c ""), s.
    split_and!; [reflexivity | discriminate | simpl; now rewrite Ec | exact Ek |].
    intros [|x p1] p2 E Hp1 Hp2; [contradiction |].
    rewrite append_cons in E. injection E as _ E.
    destruct p1; [| discriminate E].
    rewrite append_nil_l in E. congruence.
  - intros H. apply IH in H as (pre & post & -> & _ & Hlf & Hk & Hfirst).
    exists (String c pre), post.
    rewrite append_assoc in Hk.
    split_and!; [reflexivity | discriminate | simpl; now rewrite Ec | exact Hk |].
    intros [|x p1] p2 E Hp1 Hp2; [contradiction |].
    rewrite append_cons in E. injection E as <- E.
    destruct p1 as [|y p1].
    + rewrite append_nil_l in E. subst pre. exact Ek.
    + specialize (Hfirst (String y p1) p2 E).
      rewrite append_assoc in Hfirst. apply Hfirst; [discriminate | exact Hp2].
Qed.

(** A lazy [.+?] succeeds as soon as some split lets the rest match. *)
Lemma dotPlusLazy_complete {A : Type} (k : string -> string -> option A)
      (pre post acc : string) :
  pre <> "" -> noLF pre = true ->
  is_Some (k (acc +:+ pre) post) ->
  is_Some (Pattern.dotPlusLazy k acc (pre +:+ post)).
Proof.
  revert acc. induction pre as [|c pre IH]; intros acc Hne Hlf Hk;
    [contradiction |].
  rewrite append_cons. simpl in *.
  apply andb_prop in Hlf as [Hc Hlf].
  apply negb_true_iff in Hc. unfold LF in *. rewrite Hc.
  destruct (k (acc +:+ String c "") (pre +:+ post)) as [r|] eqn:Ek; [eauto |].
  destruct pre as [|d pre].
  - rewrite append_nil_l in Ek. rewrite Ek in Hk. destruct Hk as [? [=]].
  - apply IH; [discriminate | exact Hlf |]. now rewrite append_assoc.
Qed.

(** The last group [(.+?)$] takes all that is left, if that is not empty
    and has no line feed. *)
Lemma lastGroup_Some {A : Type} (f : string -> A) (secret : string) :
  secret <> "" -> noLF secret = true ->
  Pattern.dotPlusLazy
    (fun m3 e => if Pattern.atEnd e then Some (f m3) else None) "" secret
  = Some (f secret).
Proof.
  intros Hne Hlf. rewrite <- (append_nil_r secret) at 1.
  apply dotPlusLazy_first; try assumption.
  - now rewrite append_nil_l.
  - intros p1 p2 _ _ Hp2. rewrite append_nil_r.
    destruct p2; [contradiction | reflexivity].
Qed.

Lemma tailWithID_complete (m1 kind secret : string) :
  kind = "whip" \/ kind = "whep" ->
  secret <> "" -> noLF secret = true ->
  Pattern.tailWithID m1 ("/" +:+ kind +:+ "/" +:+ secret)
  = Some (m1, kind, secret).
Proof.
  intros Hk Hne Hlf. unfold Pattern.tailWithID.
  rewrite stripPrefix_append.
  assert (Pattern.whipOrWhep (kind +:+ "/" +:+ secret)
          = Some (kind, "/" +:+ secret)) as ->
      by (apply whipOrWhep_Some; auto).
  rewrite stripPrefix_append.
  apply (lastGroup_Some (fun m3 => (m1, kind, m3))); assumption.
Qed.

(** X1. The endpoint pattern and the endpoint URLs are in one-to-one
    correspondence: the URL built from a non-empty name free of line
    feeds (slashes allowed) and [whip] or [whep] is matched with exactly
    these two groups, and whatever the pattern matches is such a URL. *)
Theorem endpoint_pattern_round_trip :
  (forall name kind,
     name <> "" -> noLF name = true -> kind = "whip" \/ kind = "whep" ->
     reWHIPWHEPNoID ("/" +:+ name +:+ "/" +:+ kind) = Some (name, kind))
  /\ (forall path name kind,
        reWHIPWHEPNoID path = Some (name, kind) ->
        path = "/" +:+ name +:+ "/" +:+ kind
        /\ name <> "" /\ noLF name = true
        /\ String.eqb kind "whip" = negb (String.eqb kind "whep")).
Proof.
  split.
  - intros name kind Hn Hlf Hk. apply reWHIPWHEPNoID_Some. auto.
  - intros path name kind H.
    apply reWHIPWHEPNoID_Some in H as (-> & Hn & Hlf & Hk).
    split_and!; auto. destruct Hk as [-> | ->]; reflexivity.
Qed.

Lemma reWHIPWHEPWithID_complete (path name kind secret : string) :
  sessionSplit path name kind secret -> is_Some (reWHIPWHEPWithID path).
Proof.
  intros (-> & Hn & Hlf & Hk & Hs & Hslf).
  unfold reWHIPWHEPWithID. rewrite stripPrefix_append.
  apply dotPlusLazy_complete; try assumption.
  rewrite append_nil_l, tailWithID_complete by assumption. eauto.
Qed.

Lemma append_snoc_inj (a b : string) (x y : ascii) :
  a +:+ String x "" = b +:+ String y "" -> a = b /\ x = y.
Proof.
  revert b. induction a as [|c a IH]; intros [|d b] E;
    rewrite ?append_cons, ?append_nil_l in E.
  - injection E as ->. auto.
  - injection E as _ E. destruct b; discriminate E.
  - injection E as _ E. destruct a; discriminate E.
  - injection E as -> E. apply IH in E as [-> ->]. auto.
Qed.

(** A path that is no session URL and does not end in a slash is no
    session URL with a slash added either. *)
Lemma reWHIPWHEPWithID_add_slash (path : string) :
  reWHIPWHEPWithID path = None ->
  (forall t, path <> t +:+ "/") ->
  reWHIPWHEPWithID (path +:+ "/") = None.
Proof.
  intros Hnone Hslash.
  destruct (reWHIPWHEPWithID (path +:+ "/")) as [[[n k] x]|] eqn:E;
    [| reflexivity].
  apply reWHIPWHEPWithID_Some in E as (E & Hn & Hlf & Hk & Hs & Hslf).
  destruct (string_snoc x Hs) as (x' & c & ->).
  rewrite <- !append_assoc in E. apply append_snoc_inj in E as [E <-].
  rewrite !append_assoc in E.
  destruct x' as [|y x'].
  - exfalso. apply (Hslash ("/" +:+ n +:+ "/" +:+ k)).
    rewrite E, !append_assoc. reflexivity.
  - rewrite noLF_append in Hslf. apply andb_prop in Hslf as [Hslf _].
    assert (is_Some (reWHIPWHEPWithID path)) as [v Hv].
    { apply (reWHIPWHEPWithID_complete path n k (String y x')).
      split_and!; auto; discriminate. }
    congruence.
Qed.

(** X2. The session pattern matches a path exactly when the path can
    be read as [/<name>/<kind>/<secret>] in some valid way. *)
Theorem session_pattern_matches_iff_split (path : string) :
  is_Some (reWHIPWHEPWithID path)
  <-> exists name kind secret, sessionSplit path name kind secret.
Proof.
  split.
  - intros [[[name kind] secret] H]. exists name, kind, secret.
    now apply reWHIPWHEPWithID_Some.
  - intros (name & kind & secret & H).
    now apply (reWHIPWHEPWithID_complete path name kind secret).
Qed.

(** X3. Among all valid readings the session pattern returns the one
    with the shortest name: the name stops before the first [/whip/] or
    [/whep/] that leaves a non-empty rest, and everything after it,
    slashes and further [/whip/] segments included, is the secret. *)
Theorem session_pattern_shortest_name (path name kind secret : string) :
  reWHIPWHEPWithID path = Some (name, kind, secret) ->
  sessionSplit path name kind secret
  /\ forall name' kind' secret',
       sessionSplit path name' kind' secret' ->
       (String.length name <= String.length name')%nat.
Proof.
  intros H. split; [now apply reWHIPWHEPWithID_Some |].
  intros name' kind' secret' (E & Hn' & Hlf' & Hk' & Hs' & Hslf').
  unfold reWHIPWHEPWithID in H.
  destruct (stripPrefix "/" path) as [s1|] eqn:Es; [| discriminate].
  apply stripPrefix_Some in Es. rewrite Es in E. clear Es.
  apply (inj (String.append "/")) in E.
  apply dotPlusLazy_Some_first in H
    as (pre & post & -> & Hne & Hlf & Hk & Hfirst).
  rewrite append_nil_l in Hk.
  assert (pre = name) as ->.
  { unfold Pattern.tailWithID in Hk.
    destruct (stripPrefix "/" post) as [t|]; [| discriminate].
    destruct (Pattern.whipOrWhep t) as [[m2 r2]|]; [| discriminate].
    destruct (stripPrefix "/" r2) as [r3|]; [| discriminate].
    apply dotPlusLazy_Some in Hk as (? & ? & _ & _ & _ & Hk).
    destruct (Pattern.atEnd _); [| discriminate]. now injection Hk. }
  destruct (Nat.le_gt_cases (String.length name) (String.length name'))
    as [Hle | Hlt]; [exact Hle | exfalso].
  destruct (append_prefix_split _ _ _ _ E Hlt) as (p & Hp & Ename & Epost).
  subst name.
  specialize (Hfirst name' p eq_refl Hn' Hp).
  rewrite append_nil_l, <- Epost in Hfirst.
  rewrite tailWithID_complete in Hfirst by assumption. discriminate.
Qed.

(** X4. A path that contains a line feed, or does not start with a
    slash, matches neither pattern: it is never a WHIP/WHEP URL. *)
Theorem patterns_refuse_line_feed_and_missing_slash (path : string) :
  noLF path = false \/ stripPrefix "/" path = None ->
  reWHIPWHEPNoID path = None /\ reWHIPWHEPWithID path = None.
Proof.
  intros H. split.
  - destruct (reWHIPWHEPNoID path) as [[name kind]|] eqn:E; [| reflexivity].
    apply reWHIPWHEPNoID_Some in E as (-> & _ & Hlf & Hk).
    destruct H as [H | H].
    + rewrite !noLF_append, Hlf in H.
      destruct Hk as [-> | ->]; discriminate H.
    + now rewrite stripPrefix_append in H.
  - destruct (reWHIPWHEPWithID path) as [[[name kind] secret]|] eqn:E;
      [| reflexivity].
    apply reWHIPWHEPWithID_Some in E as (-> & _ & Hlf & Hk & _ & Hslf).
    destruct H as [H | H].
    + rewrite !noLF_append, Hlf, Hslf in H.
      destruct Hk as [-> | ->]; discriminate H.
    + now rewrite stripPrefix_append in H.
Qed.

End Patterns.

(** ** Rules for runs that never panic and for the events they add *)

Section Rules.
Context {W : Type}.

Lemma safe_ret {A : Type} (a : A) : safe (W := W) (ret a).
Proof. intros c. reflexivity. Qed.

Lemma safe_bind {A B : Type} (m : Handler W A) (k : A -> Handler W B) :
  safe m -> (forall a, safe (k a)) -> safe (m ≫= k).
Proof.
  intros Hm Hk c. unfold mbind, handler_bind, bind.
  specialize (Hm c). destruct (m c) as [a c'|c']; [apply Hk | discriminate Hm].
Qed.

(** After a call only the values the collaborator can return matter. *)
Lemma safe_call_bind {A B : Type} (e : Event) (f : W -> A * W)
      (k : A -> Handler W B) :
  (forall w, safe (k (f w).1)) -> safe (call e f ≫= k).
Proof.
  intros Hk c. unfold mbind, handler_bind, bind, call.
  specialize (Hk (world c)). destruct (f (world c)) as [a w']. apply Hk.
Qed.

Lemma safe_getRequest : safe (W := W) getRequest.
Proof. intros c. reflexivity. Qed.

Lemma safe_call {A : Type} (e : Event) (f : W -> A * W) : safe (call e f).
Proof. intros c. unfold call. now destruct (f (world c)). Qed.

Lemma safe_emit (e : Event) : safe (W := W) (emit e).
Proof. intros c. reflexivity. Qed.

Lemma safe_modifyWriter (f : ResponseWriter -> ResponseWriter) :
  safe (W := W) (modifyWriter f).
Proof. intros c. reflexivity. Qed.

Lemma safe_URL_Path_append (suffix : string) : safe (W := W) (URL_Path_append suffix).
Proof. intros c. reflexivity. Qed.

Lemma safe_checked {A : Type} (o : option A) : is_Some o -> safe (W := W) (checked o).
Proof. intros [a ->] c. reflexivity. Qed.

Variable Q : Event -> Prop.

Lemma emitsOnly_ret {A : Type} (a : A) : emitsOnly (W := W) Q (ret a).
Proof. intros c H. exact H. Qed.

Lemma emitsOnly_panic {A : Type} : emitsOnly Q (@panic W A).
Proof. intros c H. exact H. Qed.

Lemma emitsOnly_checked {A : Type} (o : option A) : emitsOnly (W := W) Q (checked o).
Proof. destruct o; [apply emitsOnly_ret | apply emitsOnly_panic]. Qed.

Lemma emitsOnly_bind {A B : Type} (m : Handler W A) (k : A -> Handler W B) :
  emitsOnly Q m -> (forall a, emitsOnly Q (k a)) -> emitsOnly Q (m ≫= k).
Proof.
  intros Hm Hk c H. unfold mbind, handler_bind, bind.
  specialize (Hm c H). destruct (m c) as [a c'|c']; simpl in *.
  - now apply Hk.
  - exact Hm.
Qed.

Lemma emitsOnly_getRequest : emitsOnly (W := W) Q getRequest.
Proof. intros c H. exact H. Qed.

Lemma emitsOnly_call {A : Type} (e : Event) (f : W -> A * W) :
  Q e -> emitsOnly Q (call e f).
Proof.
  intros He c H. unfold call. destruct (f (world c)). simpl.
  apply Forall_app. split; [exact H | now constructor].
Qed.

Lemma emitsOnly_emit (e : Event) : Q e -> emitsOnly (W := W) Q (emit e).
Proof.
  intros He c H. simpl. apply Forall_app. split; [exact H | now constructor].
Qed.

Lemma emitsOnly_modifyWriter (f : ResponseWriter -> ResponseWriter) :
  emitsOnly (W := W) Q (modifyWriter f).
Proof. intros c H. exact H. Qed.

Lemma emitsOnly_URL_Path_append (suffix : string) :
  emitsOnly (W := W) Q (URL_Path_append suffix).
Proof. intros c H. exact H. Qed.

End Rules.

Ltac safe_step :=
  cbv beta zeta;
  lazymatch goal with
  | |- safe (mbind _ (call _ _)) => apply safe_call_bind; intros ?
  | |- safe (mbind _ _) => apply safe_bind; [| intros ?]
  | |- safe (ret _) => apply safe_ret
  | |- safe (checked _) => apply safe_checked; auto
  | |- safe getRequest => apply safe_getRequest
  | |- safe (call _ _) => apply safe_call
  | |- safe (server_Log _ _ _ _) => apply safe_call
  | |- safe (sleep _) => apply safe_emit
  | |- safe (Header_Set _ _) => apply safe_modifyWriter
  | |- safe (Header_assign _ _) => apply safe_modifyWriter
  | |- safe (Writer_WriteHeader _) => apply safe_modifyWriter
  | |- safe (Writer_Write _) => apply safe_modifyWriter
  | |- safe (URL_Path_append _) => apply safe_URL_Path_append
  | |- safe (match ?x with _ => _ end) => destruct x eqn:?
  end.

Ltac emits_step :=
  cbv beta zeta;
  lazymatch goal with
  | |- emitsOnly _ (mbind _ _) => apply emitsOnly_bind; [| intros ?]
  | |- emitsOnly _ (ret _) => apply emitsOnly_ret
  | |- emitsOnly _ (checked _) => apply emitsOnly_checked
  | |- emitsOnly _ getRequest => apply emitsOnly_getRequest
  | |- emitsOnly _ (call _ _) => apply emitsOnly_call; auto
  | |- emitsOnly _ (server_Log _ _ _ _) => apply emitsOnly_call; auto
  | |- emitsOnly _ (sleep _) => apply emitsOnly_emit; auto
  | |- emitsOnly _ (Header_Set _ _) => apply emitsOnly_modifyWriter
  | |- emitsOnly _ (Header_assign _ _) => apply emitsOnly_modifyWriter
  | |- emitsOnly _ (Writer_WriteHeader _) => apply emitsOnly_modifyWriter
  | |- emitsOnly _ (Writer_Write _) => apply emitsOnly_modifyWriter
  | |- emitsOnly _ (URL_Path_append _) => apply emitsOnly_URL_Path_append
  | |- emitsOnly _ (match ?x with _ => _ end) => destruct x
  end.

(** Symbolic execution of a run named by a hypothesis [H : o = run]. *)
Ltac plumbing_in H :=
  lazy beta iota zeta delta
    [server_Log Header_Set Header_assign Writer_WriteHeader Writer_Write
     URL_Path_append sleep emit call modifyWriter getRequest checked panic
     mbind handler_bind mret handler_ret bind ret newContext newWriter
     corsContext answered
     Request_ Writer world events Header status written body
     finalContext returned] in H;
  simpl in H.

Ltac exec_in H :=
  repeat (plumbing_in H;
          match type of H with
          | context [match ?x with _ => _ end] =>
              lazymatch x with
              | context [match _ with _ => _ end] => fail
              | _ => destruct x eqn:?
              end
          end);
  plumbing_in H.

Section Calls.
Context {W : Type}.
Variable pkg : Package.
Variable s : webRTCHTTPServer W.

Lemma emitsOnly_checkAuthOutsideSession (Q : Event -> Prop)
      (path : string) (publish : bool) :
  (forall req, Q (EvGetConfForPath req)) ->
  (forall level format args, Q (EvLog level format args)) ->
  Q (EvSleep (webrtcPauseAfterAuthError pkg)) ->
  emitsOnly Q (checkAuthOutsideSession pkg s path publish).
Proof. intros H1 H2 H3. unfold checkAuthOutsideSession. repeat emits_step. Qed.

Lemma emitsOnly_onWHIPOptions (Q : Event -> Prop) (path : string) (publish : bool) :
  (forall req, Q (EvGetConfForPath req)) ->
  (forall level format args, Q (EvLog level format args)) ->
  Q (EvSleep (webrtcPauseAfterAuthError pkg)) ->
  Q EvGenerateICEServers ->
  emitsOnly Q (onWHIPOptions pkg s path publish).
Proof.
  intros H1 H2 H3 H4. unfold onWHIPOptions.
  apply emitsOnly_bind; [now apply emitsOnly_checkAuthOutsideSession | intros ok].
  repeat emits_step.
Qed.

Lemma emitsOnly_onPage (Q : Event -> Prop) (path : string) (publish : bool) :
  (forall req, Q (EvGetConfForPath req)) ->
  (forall level format args, Q (EvLog level format args)) ->
  Q (EvSleep (webrtcPauseAfterAuthError pkg)) ->
  emitsOnly Q (onPage pkg s path publish).
Proof.
  intros H1 H2 H3. unfold onPage.
  apply emitsOnly_bind; [now apply emitsOnly_checkAuthOutsideSession | intros ok].
  repeat emits_step.
Qed.

Lemma emitsOnly_onWHIPPost (Q : Event -> Prop) (path : string) (publish : bool) :
  (forall req, Q (EvNewSession req)) -> Q EvGenerateICEServers ->
  emitsOnly Q (onWHIPPost pkg s path publish).
Proof. intros H1 H2. unfold onWHIPPost. repeat emits_step. Qed.

Lemma emitsOnly_onWHIPPatch (Q : Event -> Prop) (rawSecret : string) :
  (forall req, Q (EvAddSessionCandidates req)) ->
  emitsOnly Q (onWHIPPatch pkg s rawSecret).
Proof. intros H1. unfold onWHIPPatch. repeat emits_step. Qed.

Lemma emitsOnly_onWHIPDelete (Q : Event -> Prop) (rawSecret : string) :
  (forall req, Q (EvDeleteSession req)) ->
  emitsOnly Q (onWHIPDelete pkg s rawSecret).
Proof. intros H1. unfold onWHIPDelete. repeat emits_step. Qed.

(** *** The routes of [onRequest] *)

Lemma index_last_Some (path : string) :
  1 <= len path -> is_Some (index path (len path - 1)).
Proof.
  intros H. destruct (string_snoc path) as (t & x & ->).
  - intros ->. unfold len in H. simpl in H. lia.
  - rewrite index_last_snoc. eauto.
Qed.

Lemma slice_Some (a : string) (lo hi : Z) :
  0 <= lo -> lo <= hi -> hi <= len a -> is_Some (slice a lo hi).
Proof.
  intros H1 H2 H3. unfold slice.
  replace (0 <=? lo) with true by lia.
  replace (lo <=? hi) with true by lia.
  replace (hi <=? len a) with true by lia. simpl. eauto.
Qed.

Lemma slice_None (a : string) (lo hi : Z) :
  slice a lo hi = None -> lo < 0 \/ hi < lo \/ len a < hi.
Proof.
  unfold slice. intros H.
  destruct (0 <=? lo) eqn:E1; [| lia].
  destruct (lo <=? hi) eqn:E2; [| lia].
  destruct (hi <=? len a) eqn:E3; [discriminate | lia].
Qed.

Lemma len_zero (a : string) : len a = 0 -> a = "".
Proof.
  destruct a as [|x t]; [reflexivity |].
  rewrite len_cons. pose proof (len_nonneg t). lia.
Qed.

(** Every run of the handler takes exactly one of these routes. *)
Lemma serve_cases (P : Outcome W unit -> Prop) (r : Request) (w : W) :
  let c0 := corsContext s r w in
  let path := Path (ReqURL r) in
  let acrm := http.Get (ReqHeader r) "Access-Control-Request-Method" in
  (* preflight *)
  (Method r = "OPTIONS" -> acrm <> "" ->
   P (Returned tt (answered c0 204
        [("Access-Control-Allow-Methods", allowMethods);
         ("Access-Control-Allow-Headers", allowHeaders)]))) ->
  (* WHIP, outside session *)
  (forall m1 m2, reWHIPWHEPNoID path = Some (m1, m2) ->
     Method r = "OPTIONS" -> acrm = "" ->
     P (onWHIPOptions pkg s m1 (String.eqb m2 "whip") c0)) ->
  (forall m1 m2, reWHIPWHEPNoID path = Some (m1, m2) ->
     Method r = "POST" ->
     P (onWHIPPost pkg s m1 (String.eqb m2 "whip") c0)) ->
  (is_Some (reWHIPWHEPNoID path) ->
     Method r = "GET" \/ Method r = "HEAD" \/ Method r = "PUT" ->
     P (Returned tt (answered c0 405 []))) ->
  (* WHIP, inside session *)
  (forall m1 m2 m3, reWHIPWHEPNoID path = None ->
     reWHIPWHEPWithID path = Some (m1, m2, m3) ->
     Method r = "PATCH" -> P (onWHIPPatch pkg s m3 c0)) ->
  (forall m1 m2 m3, reWHIPWHEPNoID path = None ->
     reWHIPWHEPWithID path = Some (m1, m2, m3) ->
     Method r = "DELETE" -> P (onWHIPDelete pkg s m3 c0)) ->
  (* static resources *)
  (forall x name, reWHIPWHEPNoID path = None -> reWHIPWHEPWithID path = None ->
     Method r = "GET" -> path = String x (name +:+ "/publish") ->
     P (onPage pkg s name true c0)) ->
  (Method r = "GET" -> path = "/publish" -> P (Panicked c0)) ->
  (forall x name, reWHIPWHEPNoID path = None -> reWHIPWHEPWithID path = None ->
     Method r = "GET" -> path = String x (name +:+ "/") -> name <> "" ->
     HasSuffix path "/publish" = false ->
     P (onPage pkg s name false c0)) ->
  (reWHIPWHEPNoID path = None -> reWHIPWHEPWithID path = None ->
     Method r = "GET" -> 3 <= len path -> path <> "/favicon.ico" ->
     HasSuffix path "/publish" = false -> HasSuffix path "/" = false ->
     P (Returned tt
          (mkContext
             (mkRequest (Method r) (mkURL (path +:+ "/") (RawQuery (ReqURL r)))
                        (ReqHeader r) (Body r) (RemoteAddr r) (ClientIP r))
             {| Header := http.Set_ (Header (Writer c0)) "Location"
                            (relativeLocation
                               (mkURL (path +:+ "/") (RawQuery (ReqURL r))));
                status := Some 301; written := false; body := "" |}
             w []))) ->
  (* no route: nothing but the two headers *)
  P (Returned tt c0) ->
  P (serve pkg s r w).
Proof.
  intros c0 path acrm Hpre Hopt Hpost H405 Hpatch Hdel Hpub Hpanic Hread Hredir Hnone.
  subst c0 path acrm. unfold corsContext, answered in *. simpl in *.
  dispatch.
  destruct (String.eqb (Method r) http.MethodOptions) eqn:Eo.
  { apply String.eqb_eq in Eo.
    destruct (String.eqb (http.Get (ReqHeader r) "Access-Control-Request-Method") "")
      eqn:Ea; simpl.
    - apply String.eqb_eq in Ea.
      destruct (reWHIPWHEPNoID _) as [[m1 m2]|] eqn:En; [now apply Hopt |].
      destruct (reWHIPWHEPWithID _) as [[[m1 m2] m3]|] eqn:Ew;
        rewrite Eo; simpl; exact Hnone.
    - apply String.eqb_neq in Ea. now apply Hpre. }
  simpl.
  destruct (reWHIPWHEPNoID _) as [[m1 m2]|] eqn:En.
  { destruct (String.eqb (Method r) http.MethodPost) eqn:Ep.
    { apply String.eqb_eq in Ep. now apply (Hpost m1 m2). }
    destruct (String.eqb (Method r) http.MethodGet) eqn:Eg;
      [apply String.eqb_eq in Eg; simpl; apply H405; eauto |].
    destruct (String.eqb (Method r) http.MethodHead) eqn:Eh;
      [apply String.eqb_eq in Eh; simpl; apply H405; eauto |].
    destruct (String.eqb (Method r) http.MethodPut) eqn:Eu;
      [apply String.eqb_eq in Eu; simpl; apply H405; eauto |].
    simpl. exact Hnone. }
  destruct (reWHIPWHEPWithID _) as [[[m1 m2] m3]|] eqn:Ew.
  { destruct (String.eqb (Method r) http.MethodPatch) eqn:Ep.
    { apply String.eqb_eq in Ep. now apply (Hpatch m1 m2 m3). }
    destruct (String.eqb (Method r) http.MethodDelete) eqn:Ed.
    { apply String.eqb_eq in Ed. now apply (Hdel m1 m2 m3). }
    exact Hnone. }
  destruct (String.eqb (Method r) http.MethodGet) eqn:Eg; [| exact Hnone].
  apply String.eqb_eq in Eg.
  destruct (String.eqb (Path (ReqURL r)) "/favicon.ico") eqn:Ef; [exact Hnone |].
  apply String.eqb_neq in Ef.
  destruct (3 <=? len (Path (ReqURL r))) eqn:El; [| exact Hnone].
  apply Z.leb_le in El.
  destruct (HasSuffix (Path (ReqURL r)) "/publish") eqn:Es.
  { apply HasSuffix_true in Es as [t Ht].
    destruct t as [|x t].
    - rewrite Ht. unfold_plumbing. now apply Hpanic.
    - rewrite append_cons in Ht.
      assert (slice (Path (ReqURL r)) 1 (len (Path (ReqURL r)) - len "/publish")
              = Some t) as -> by (rewrite Ht; apply slice_middle).
      unfold_plumbing. now apply (Hpub x t). }
  destruct (string_snoc (Path (ReqURL r))) as (t & y & Ht).
  { intros E. rewrite E in El. vm_compute in El. contradiction. }
  assert (index (Path (ReqURL r)) (len (Path (ReqURL r)) - 1) = Some y) as ->
      by (rewrite Ht; apply index_last_snoc).
  unfold_plumbing.
  destruct (Ascii.eqb y "/") eqn:Ey; unfold_plumbing.
  - apply Ascii.eqb_eq in Ey. subst y.
    destruct t as [|x [|z name]].
    + rewrite Ht in El. vm_compute in El. contradiction.
    + rewrite Ht in El. vm_compute in El. contradiction.
    + rewrite append_cons in Ht.
      assert (slice (Path (ReqURL r)) 1 (len (Path (ReqURL r)) - 1)
              = Some (String z name)) as ->
          by (rewrite Ht; apply (slice_middle x (String z name) "/")).
      unfold_plumbing. apply (Hread x (String z name)); done.
  - apply Hredir; try done.
    destruct (HasSuffix (Path (ReqURL r)) "/") eqn:Hs; [| reflexivity].
    apply HasSuffix_true in Hs as [t' Ht']. rewrite Ht' in Ht.
    assert (index (t' +:+ "/") (len (t' +:+ "/") - 1)
            = index (t +:+ String y "") (len (t +:+ String y "") - 1)) as E
        by now rewrite Ht.
    rewrite !index_last_append in E by discriminate.
    vm_compute in E. injection E as <-. discriminate Ey.
Qed.

(** X5. Whatever the request, the parent is asked for a new session only
    by a POST, for more candidates only by a PATCH, and to delete a
    session only by a DELETE. *)
Theorem parent_calls_follow_the_method (r : Request) (w : W) (e : Event) :
  In e (events (finalContext (serve pkg s r w))) ->
  match e with
  | EvNewSession _ => Method r = "POST"
  | EvAddSessionCandidates _ => Method r = "PATCH"
  | EvDeleteSession _ => Method r = "DELETE"
  | _ => True
  end.
Proof.
  revert e. change (forall e, In e (events (finalContext (serve pkg s r w)))
                              -> allowedFor (Method r) e).
  apply List.Forall_forall.
  apply serve_cases; try (simpl; constructor).
  - intros m1 m2 _ _ _. apply emitsOnly_onWHIPOptions; simpl; auto.
  - intros m1 m2 _ ->. apply emitsOnly_onWHIPPost; simpl; auto.
  - intros m1 m2 m3 _ _ ->. apply emitsOnly_onWHIPPatch; simpl; auto.
  - intros m1 m2 m3 _ _ ->. apply emitsOnly_onWHIPDelete; simpl; auto.
  - intros x name _ _ _ _. apply emitsOnly_onPage; simpl; auto.
  - intros x name _ _ _ _ _ _. apply emitsOnly_onPage; simpl; auto.
Qed.

(** *** Runs that never panic *)

Lemma safe_checkAuthOutsideSession (path : string) (publish : bool) :
  safe (checkAuthOutsideSession pkg s path publish).
Proof. unfold checkAuthOutsideSession. repeat safe_step. Qed.

Lemma safe_onWHIPOptions (path : string) (publish : bool) :
  safe (onWHIPOptions pkg s path publish).
Proof.
  unfold onWHIPOptions.
  apply safe_bind; [apply safe_checkAuthOutsideSession | intros ok].
  repeat safe_step.
Qed.

Lemma safe_onPage (path : string) (publish : bool) :
  safe (onPage pkg s path publish).
Proof.
  unfold onPage.
  apply safe_bind; [apply safe_checkAuthOutsideSession | intros ok].
  repeat safe_step.
Qed.

Lemma safe_onWHIPPatch (rawSecret : string) : safe (onWHIPPatch pkg s rawSecret).
Proof. unfold onWHIPPatch. repeat safe_step. Qed.

Lemma safe_onWHIPDelete (rawSecret : string) : safe (onWHIPDelete pkg s rawSecret).
Proof. unfold onWHIPDelete. repeat safe_step. Qed.

Lemma safe_onWHIPPost (path : string) (publish : bool) :
  (forall req w, nr_err (@newSession W (parent s) req w).1 = None ->
                 is_Some (nr_sx (@newSession W (parent s) req w).1)) ->
  safe (onWHIPPost pkg s path publish).
Proof. intros H. unfold onWHIPPost. repeat safe_step. Qed.

(** X6. Provided the parent never reports success without a session,
    the handler panics on exactly one request: a GET of [/publish],
    whose path name would be the slice [1:0]. *)
Theorem handler_panics_only_on_get_publish (r : Request) (w : W) :
  (forall req w, nr_err (@newSession W (parent s) req w).1 = None ->
                 is_Some (nr_sx (@newSession W (parent s) req w).1)) ->
  returned (serve pkg s r w) = false
  <-> Method r = "GET" /\ Path (ReqURL r) = "/publish".
Proof.
  intros Hsx. split.
  - apply serve_cases; try discriminate.
    + intros. now rewrite safe_onWHIPOptions in *.
    + intros. now rewrite safe_onWHIPPost in *.
    + intros. now rewrite safe_onWHIPPatch in *.
    + intros. now rewrite safe_onWHIPDelete in *.
    + intros. now rewrite safe_onPage in *.
    + auto.
    + intros. now rewrite safe_onPage in *.
  - intros [Hm Hp]. dispatch. rewrite Hm, Hp. reflexivity.
Qed.

(** *** Pauses *)

Lemma paused_app (a b : list Event) : paused (a ++ b) = paused a + paused b.
Proof.
  induction a as [|e a IH]; [reflexivity |].
  simpl. destruct e; rewrite IH; lia.
Qed.

Lemma paused_no_sleep (evs : list Event) :
  Forall (fun e => isSleep e = false) evs -> paused evs = 0.
Proof.
  induction 1 as [|e evs He _ IH]; [reflexivity |].
  destruct e; simpl in *; try exact IH. discriminate.
Qed.

(** X7. The handler pauses at most once per request, for
    [webrtcPauseAfterAuthError], and only on the way to a 401 for a
    request that carried credentials; that answer has no
    [WWW-Authenticate] challenge. *)
Theorem pause_only_before_401_with_credentials (r : Request) (w : W) :
  let c := finalContext (serve pkg s r w) in
  paused (events c) = 0
  \/ (paused (events c) = webrtcPauseAfterAuthError pkg
      /\ status (Writer c) = Some 401
      /\ (BasicAuth pkg r).2 = true
      /\ Header (Writer c) !! "WWW-Authenticate" = None).
Proof.
  intros c. subst c.
  apply serve_cases; try (left; reflexivity).
  - intros m1 m2 _ _ _.
    remember (onWHIPOptions pkg s m1 (String.eqb m2 "whip") (corsContext s r w))
      as o eqn:Ho.
    unfold onWHIPOptions, checkAuthOutsideSession in Ho. exec_in Ho.
    all: subst o; simpl; rewrite ?Z.add_0_r; auto.
    all: right; split_and!; auto; header_lookup; now destruct b.
  - intros m1 m2 _ _. left. apply paused_no_sleep.
    apply emitsOnly_onWHIPPost; simpl; auto.
  - intros m1 m2 m3 _ _ _. left. apply paused_no_sleep.
    apply emitsOnly_onWHIPPatch; simpl; auto.
  - intros m1 m2 m3 _ _ _. left. apply paused_no_sleep.
    apply emitsOnly_onWHIPDelete; simpl; auto.
  - intros x name _ _ _ _.
    remember (onPage pkg s name true (corsContext s r w)) as o eqn:Ho.
    unfold onPage, checkAuthOutsideSession in Ho. exec_in Ho.
    all: subst o; simpl; rewrite ?Z.add_0_r; auto.
    all: right; split_and!; auto; header_lookup; now destruct b.
  - intros x name _ _ _ _ _ _.
    remember (onPage pkg s name false (corsContext s r w)) as o eqn:Ho.
    unfold onPage, checkAuthOutsideSession in Ho. exec_in Ho.
    all: subst o; simpl; rewrite ?Z.add_0_r; auto.
    all: right; split_and!; auto; header_lookup; now destruct b.
Qed.

(** *** What is written to the body *)

(** X8. A response body is written in two cases only: the page with
    status 200 and [Content-Type: text/html] on a GET, and the parent's
    SDP answer with status 201 and [Content-Type: application/sdp] on a
    POST.  Every other run leaves the body empty and unstarted. *)
Theorem body_is_page_or_answer_or_empty (r : Request) (w : W) :
  let c := finalContext (serve pkg s r w) in
  (written (Writer c) = false /\ body (Writer c) = "")
  \/ (written (Writer c) = true /\ Method r = "GET"
      /\ status (Writer c) = Some 200
      /\ Header (Writer c) !! "Content-Type" = Some ["text/html"]
      /\ (body (Writer c) = webrtcPublishIndex pkg
          \/ body (Writer c) = webrtcReadIndex pkg))
  \/ (written (Writer c) = true /\ Method r = "POST"
      /\ status (Writer c) = Some 201
      /\ Header (Writer c) !! "Content-Type" = Some ["application/sdp"]
      /\ exists req, body (Writer c)
                     = nr_answer (@newSession W (parent s) req w).1).
Proof.
  intros c. subst c.
  apply serve_cases; try (left; split; reflexivity).
  - intros m1 m2 _ _ _.
    remember (onWHIPOptions pkg s m1 (String.eqb m2 "whip") (corsContext s r w))
      as o eqn:Ho.
    unfold onWHIPOptions, checkAuthOutsideSession in Ho. exec_in Ho.
    all: subst o; left; split; reflexivity.
  - intros m1 m2 _ Hm.
    remember (onWHIPPost pkg s m1 (String.eqb m2 "whip") (corsContext s r w))
      as o eqn:Ho.
    unfold onWHIPPost in Ho. exec_in Ho.
    all: subst o; try (left; split; reflexivity).
    right; right. simpl. split_and!; auto; header_lookup.
    eexists. rewrite append_nil_l.
    match goal with H : newSession _ w = _ |- _ => rewrite H end.
    reflexivity.
  - intros m1 m2 m3 _ _ _.
    remember (onWHIPPatch pkg s m3 (corsContext s r w)) as o eqn:Ho.
    unfold onWHIPPatch in Ho. exec_in Ho.
    all: subst o; left; split; reflexivity.
  - intros m1 m2 m3 _ _ _.
    remember (onWHIPDelete pkg s m3 (corsContext s r w)) as o eqn:Ho.
    unfold onWHIPDelete in Ho. exec_in Ho.
    all: subst o; left; split; reflexivity.
  - intros x name _ _ Hm _.
    remember (onPage pkg s name true (corsContext s r w)) as o eqn:Ho.
    unfold onPage, checkAuthOutsideSession in Ho. exec_in Ho.
    all: subst o; try (left; split; reflexivity).
    right; left. simpl. split_and!; auto; header_lookup.
  - intros x name _ _ Hm _ _ _.
    remember (onPage pkg s name false (corsContext s r w)) as o eqn:Ho.
    unfold onPage, checkAuthOutsideSession in Ho. exec_in Ho.
    all: subst o; try (left; split; reflexivity).
    right; left. simpl. split_and!; auto; header_lookup.
Qed.

(** *** Which status goes with which method *)

(** X9. The status codes of the handler, by method.  The handler sets
    no status, or one of nine codes, each only for the methods listed
    here; the one exception is the code a refused POST relays from the
    parent.  So a PATCH or a DELETE is never answered 401 or 404, and
    201 is kept for POST. *)
Theorem status_goes_with_method (r : Request) (w : W) :
  let c := finalContext (serve pkg s r w) in
  let st := status (Writer c) in
  let m := Method r in
  st = None
  \/ (st = Some 200 /\ (m = "GET" \/ m = "DELETE"))
  \/ (st = Some 201 /\ m = "POST")
  \/ (st = Some 204 /\ (m = "OPTIONS" \/ m = "PATCH"))
  \/ (st = Some 301 /\ m = "GET")
  \/ (st = Some 400 /\ (m = "POST" \/ m = "PATCH" \/ m = "DELETE"))
  \/ (st = Some 401 /\ (m = "OPTIONS" \/ m = "GET"))
  \/ (st = Some 404 /\ (m = "OPTIONS" \/ m = "GET"))
  \/ (st = Some 405 /\ (m = "GET" \/ m = "HEAD" \/ m = "PUT"))
  \/ (st = Some 500 /\ (m = "OPTIONS" \/ m = "POST"))
  \/ (m = "POST"
      /\ exists req,
           is_Some (nr_err (@newSession W (parent s) req w).1)
           /\ st = Some (nr_errStatusCode (@newSession W (parent s) req w).1)).
Proof.
  intros c st m. subst m st c.
  apply serve_cases; try (left; reflexivity).
  - intros Hm _. simpl. auto 12.
  - intros m1 m2 _ Hm _.
    remember (onWHIPOptions pkg s m1 (String.eqb m2 "whip") (corsContext s r w))
      as o eqn:Ho.
    unfold onWHIPOptions, checkAuthOutsideSession in Ho. exec_in Ho.
    all: subst o; simpl; auto 14.
  - intros m1 m2 _ Hm.
    remember (onWHIPPost pkg s m1 (String.eqb m2 "whip") (corsContext s r w))
      as o eqn:Ho.
    unfold onWHIPPost in Ho. exec_in Ho.
    all: subst o; simpl; auto 14.
    do 10 right. split; [exact Hm |]. eexists.
    match goal with H : newSession _ w = _ |- _ => rewrite H end.
    simpl. split; [| reflexivity].
    match goal with H : nr_err _ = Some _ |- _ => rewrite H end. eauto.
  - intros _ Hm. simpl. do 8 right. left. auto.
  - intros m1 m2 m3 _ _ Hm.
    remember (onWHIPPatch pkg s m3 (corsContext s r w)) as o eqn:Ho.
    unfold onWHIPPatch in Ho. exec_in Ho.
    all: subst o; simpl; auto 14.
  - intros m1 m2 m3 _ _ Hm.
    remember (onWHIPDelete pkg s m3 (corsContext s r w)) as o eqn:Ho.
    unfold onWHIPDelete in Ho. exec_in Ho.
    all: subst o; simpl; auto 14.
  - intros x name _ _ Hm _.
    remember (onPage pkg s name true (corsContext s r w)) as o eqn:Ho.
    unfold onPage, checkAuthOutsideSession in Ho. exec_in Ho.
    all: subst o; simpl; auto 14.
  - intros x name _ _ Hm _ _ _.
    remember (onPage pkg s name false (corsContext s r w)) as o eqn:Ho.
    unfold onPage, checkAuthOutsideSession in Ho. exec_in Ho.
    all: subst o; simpl; auto 14.
  - intros _ _ Hm _ _ _ _. simpl. auto 12.
Qed.

End Calls.

(** ** Requests that reach no handler, and failures of a POST *)

Section Edges.
Context {W : Type}.
Variable pkg : Package.
Variable s : webRTCHTTPServer W.

(** X10. A request outside the routing table gets nothing but the two
    CORS headers: no status, no body, no call into the path manager or
    the parent.  These are: a method other than OPTIONS, POST, GET, HEAD
    and PUT on an endpoint; a method other than PATCH and DELETE on a
    session URL; a method other than GET on any other path; a GET of
    [/favicon.ico]; and a GET of a path shorter than three bytes.
    (An OPTIONS request with [Access-Control-Request-Method] is a
    preflight and is answered before routing.) *)
Theorem unrouted_request_gets_only_cors_headers (r : Request) (w : W) :
  ~ (Method r = "OPTIONS"
     /\ http.Get (ReqHeader r) "Access-Control-Request-Method" <> "") ->
  let path := Path (ReqURL r) in
  (is_Some (reWHIPWHEPNoID path)
   /\ Method r <> "OPTIONS" /\ Method r <> "POST" /\ Method r <> "GET"
   /\ Method r <> "HEAD" /\ Method r <> "PUT")
  \/ (reWHIPWHEPNoID path = None /\ is_Some (reWHIPWHEPWithID path)
      /\ Method r <> "PATCH" /\ Method r <> "DELETE")
  \/ (reWHIPWHEPNoID path = None /\ reWHIPWHEPWithID path = None
      /\ Method r <> "GET")
  \/ (Method r = "GET" /\ path = "/favicon.ico")
  \/ (Method r = "GET" /\ len path < 3) ->
  serve pkg s r w = Returned tt (corsContext s r w).
Proof.
  intros Hpre path Hcase. subst path.
  assert (String.eqb (Method r) http.MethodOptions
          && negb (String.eqb (http.Get (ReqHeader r)
                                 "Access-Control-Request-Method") "") = false)
    as Hpf.
  { destruct (String.eqb (Method r) http.MethodOptions) eqn:Eo; [| reflexivity].
    destruct (String.eqb (http.Get _ _) "") eqn:Ea; [reflexivity |].
    apply String.eqb_eq in Eo. apply String.eqb_neq in Ea.
    exfalso. apply Hpre. auto. }
  dispatch. rewrite Hpf.
  destruct Hcase as [(Hn & Ho & Hp & Hg & Hh & Hu)
                    | [(Hn & Hw & Hp & Hd) | [(Hn & Hw & Hg) | [(Hg & Hf) | (Hg & Hl)]]]].
  - destruct Hn as [[m1 m2] ->].
    apply String.eqb_neq in Ho, Hp, Hg, Hh, Hu.
    unfold http.MethodOptions, http.MethodPost, http.MethodGet,
      http.MethodHead, http.MethodPut.
    now rewrite Ho, Hp, Hg, Hh, Hu.
  - rewrite Hn. destruct Hw as [[[m1 m2] m3] ->].
    apply String.eqb_neq in Hp, Hd.
    unfold http.MethodPatch, http.MethodDelete. now rewrite Hp, Hd.
  - rewrite Hn, Hw. apply String.eqb_neq in Hg.
    unfold http.MethodGet. now rewrite Hg.
  - rewrite Hf, Hg. reflexivity.
  - assert (reWHIPWHEPNoID (Path (ReqURL r)) = None) as ->.
    { destruct (reWHIPWHEPNoID _) as [[n k]|] eqn:E; [| reflexivity].
      apply reWHIPWHEPNoID_Some in E as (E & Hn & _ & Hk).
      rewrite E, !len_append in Hl. destruct n as [|a n]; [contradiction |].
      rewrite !len_cons in Hl. change (len "") with 0 in Hl.
      pose proof (len_nonneg n). pose proof (len_nonneg k). lia. }
    assert (reWHIPWHEPWithID (Path (ReqURL r)) = None) as ->.
    { destruct (reWHIPWHEPWithID _) as [[[n k] x]|] eqn:E; [| reflexivity].
      apply reWHIPWHEPWithID_Some in E as (E & Hn & _).
      rewrite E, !len_append in Hl. destruct n as [|a n]; [contradiction |].
      rewrite !len_cons in Hl. change (len "") with 0 in Hl.
      pose proof (len_nonneg n). pose proof (len_nonneg k).
      pose proof (len_nonneg x). lia. }
    rewrite Hg. simpl.
    destruct (String.eqb (Path (ReqURL r)) "/favicon.ico"); [reflexivity |].
    replace (3 <=? len (Path (ReqURL r))) with false by lia. reflexivity.
Qed.

(** X11. The two ways a well-typed POST to an endpoint fails.  When the
    body cannot be read the handler returns at once: no status, and the
    parent is not asked for a session.  When the parent refuses the
    offer its status code is relayed as it is (a code that is not
    positive leaves the status unset), no ICE servers are generated and
    no header beyond the two CORS headers is set. *)
Theorem post_unread_body_or_refused_offer (r : Request) (w : W)
        (name kind : string) :
  Method r = "POST" ->
  reWHIPWHEPNoID (Path (ReqURL r)) = Some (name, kind) ->
  http.Get (ReqHeader r) "Content-Type" = "application/sdp" ->
  match Body r with
  | None => serve pkg s r w = Returned tt (corsContext s r w)
  | Some offer =>
      let req := newSessionReqOf pkg r name (String.eqb kind "whip") offer in
      let res := @newSession W (parent s) req w in
      is_Some (nr_err res.1) ->
      let code := nr_errStatusCode res.1 in
      serve pkg s r w
      = Returned tt
          (mkContext r
             {| Header := Header (Writer (corsContext s r w));
                status := if 0 <? code then Some code else None;
                written := false; body := "" |}
             res.2 [EvNewSession req])
  end.
Proof.
  intros Hm Hre Hct.
  destruct (Body r) as [offer|] eqn:Hbody.
  - intros req res [e He] code. subst code res req.
    dispatch. rewrite Hm, Hre. simpl.
    unfold onWHIPPost. unfold_plumbing. rewrite Hct, Hbody. simpl.
    destruct (newSession _ w) as [res w1]. simpl in *. rewrite He. simpl.
    rewrite andb_true_r. reflexivity.
  - dispatch. rewrite Hm, Hre. simpl.
    unfold onWHIPPost. unfold_plumbing. rewrite Hct, Hbody. reflexivity.
Qed.

(** X12. The word after the path name decides the direction: on a
    [whip] endpoint the authentication of OPTIONS and the session of
    POST are for publishing, on a [whep] endpoint for reading; both
    carry the captured path name, and the session request carries the
    body as the offer and the query string of the URL. *)
Theorem endpoint_kind_decides_direction (r : Request) (w : W)
        (name kind : string) :
  reWHIPWHEPNoID (Path (ReqURL r)) = Some (name, kind) ->
  let c := finalContext (serve pkg s r w) in
  (Method r = "OPTIONS" ->
   http.Get (ReqHeader r) "Access-Control-Request-Method" = "" ->
   exists req rest,
     events c = EvGetConfForPath req :: rest
     /\ ar_name (accessRequest req) = name
     /\ (ar_publish (accessRequest req) = true <-> kind = "whip")
     /\ (ar_publish (accessRequest req) = false <-> kind = "whep"))
  /\ (Method r = "POST" ->
      http.Get (ReqHeader r) "Content-Type" = "application/sdp" ->
      forall offer, Body r = Some offer ->
      exists req rest,
        events c = EvNewSession req :: rest
        /\ ns_pathName req = name
        /\ ns_offer req = offer
        /\ ns_query req = RawQuery (ReqURL r)
        /\ (ns_publish req = true <-> kind = "whip")
        /\ (ns_publish req = false <-> kind = "whep")).
Proof.
  intros Hre c. subst c.
  apply reWHIPWHEPNoID_Some in Hre as Hk. destruct Hk as (_ & _ & _ & Hk).
  assert ((String.eqb kind "whip" = true <-> kind = "whip")
          /\ (String.eqb kind "whip" = false <-> kind = "whep")) as [Hw1 Hw2].
  { destruct Hk as [-> | ->]; simpl; split; split; congruence. }
  split.
  - intros Hm Hh.
    remember (serve pkg s r w) as o eqn:Ho.
    unfold serve, onRequest in Ho. plumbing_in Ho.
    rewrite Hm, Hh, Hre in Ho. simpl in Ho.
    unfold onWHIPOptions, checkAuthOutsideSession in Ho.
    exec_in Ho.
    all: subst o; simpl; eexists; eexists; split; [reflexivity |];
      unfold accessRequestOf; destruct (BasicAuth pkg r) as [[? ?] ?];
      simpl; auto.
  - intros Hm Hct offer Hbody.
    remember (serve pkg s r w) as o eqn:Ho.
    unfold serve, onRequest in Ho. plumbing_in Ho.
    rewrite Hm, Hre in Ho. simpl in Ho.
    unfold onWHIPPost in Ho. plumbing_in Ho.
    rewrite Hct, Hbody in Ho. simpl in Ho.
    exec_in Ho.
    all: subst o; simpl; eexists; eexists; split; [reflexivity |];
      unfold newSessionReqOf; destruct (BasicAuth pkg r) as [[? ?] ?];
      simpl; auto 10.
Qed.

(** X13. When the path manager reports an error that is not an
    authentication error, such as an unknown path, an OPTIONS request to
    an endpoint is answered 404 at once: no pause, no challenge, no ICE
    servers generated, whether or not credentials were sent. *)
Theorem options_unknown_path_404 (r : Request) (w : W)
        (name kind text : string) :
  Method r = "OPTIONS" ->
  http.Get (ReqHeader r) "Access-Control-Request-Method" = "" ->
  reWHIPWHEPNoID (Path (ReqURL r)) = Some (name, kind) ->
  let req := accessRequestOf pkg r name (String.eqb kind "whip") in
  let auth := getConfForPath (pathManager_ s) req w in
  cr_err auth.1 = Some (errOther text) ->
  serve pkg s r w
  = Returned tt
      (mkContext r
         {| Header := Header (Writer (corsContext s r w));
            status := Some 404; written := false; body := "" |}
         auth.2 [EvGetConfForPath req]).
Proof.
  intros Hm Hh Hre req auth Herr. subst auth req.
  dispatch. rewrite Hm, Hh, Hre. simpl.
  unfold onWHIPOptions, checkAuthOutsideSession. unfold_plumbing.
  destruct (BasicAuth pkg r) as [[user pass] has].
  destruct (getConfForPath _ _ _) as [res w1]. simpl in *.
  rewrite Herr. reflexivity.
Qed.

End Edges.

(** ** The redirect and what it leads to *)

Section Redirect.
Context {W : Type}.
Variable pkg : Package.
Variable s : webRTCHTTPServer W.

(** X14. The redirect of a GET without trailing slash leads to the read
    page.  When the router answers a GET with 301 (the path is no
    endpoint and no session URL, has three bytes or more, is not
    [/favicon.ico] and ends neither in [/publish] nor in [/]), the
    [Location] is the path with [/] added and the query string kept; and
    any GET of that path, whatever its headers and whatever the state of
    the collaborators, is handed to [onPage] for reading, with the old
    path without its first byte as the name: it is never taken for a
    session URL, never redirected again. *)
Theorem redirect_leads_to_the_read_page (r r' : Request) (w w' : W) :
  Method r = "GET" ->
  reWHIPWHEPNoID (Path (ReqURL r)) = None ->
  reWHIPWHEPWithID (Path (ReqURL r)) = None ->
  3 <= len (Path (ReqURL r)) ->
  Path (ReqURL r) <> "/favicon.ico" ->
  (forall t, Path (ReqURL r) <> t +:+ "/publish") ->
  (forall t, Path (ReqURL r) <> t +:+ "/") ->
  Method r' = "GET" ->
  Path (ReqURL r') = Path (ReqURL r) +:+ "/" ->
  let c := finalContext (serve pkg s r w) in
  status (Writer c) = Some 301
  /\ Header (Writer c) !! "Location"
     = Some [Path (ReqURL r')
             +:+ (if String.eqb (RawQuery (ReqURL r)) "" then ""
                  else "?" +:+ RawQuery (ReqURL r))]
  /\ exists x name,
       Path (ReqURL r) = String x name /\ name <> ""
       /\ serve pkg s r' w' = onPage pkg s name false (corsContext s r' w').
Proof.
  intros Hm Hno Hwith Hlen Hfav Hpub Hslash Hm' Hp' c. subst c.
  destruct (string_snoc (Path (ReqURL r))) as (t & x & E).
  { intros E. rewrite E in Hlen. unfold len in Hlen. simpl in Hlen. lia. }
  assert (index (Path (ReqURL r)) (len (Path (ReqURL r)) - 1) = Some x)
    as Hidx by (rewrite E; apply index_last_snoc).
  assert (Ascii.eqb x "/" = false) as Hx.
  { destruct (Ascii.eqb x "/") eqn:Hx; [| reflexivity].
    apply Ascii.eqb_eq in Hx. subst x. now apply Hslash in E. }
  split_and!.
  - dispatch. rewrite Hm, Hno, Hwith. simpl.
    apply String.eqb_neq in Hfav. rewrite Hfav.
    replace (3 <=? len (Path (ReqURL r))) with true by lia.
    destruct (HasSuffix (Path (ReqURL r)) "/publish") eqn:Hs.
    { apply HasSuffix_true in Hs as [u Eu]. now apply Hpub in Eu. }
    rewrite Hidx, Hx. reflexivity.
  - dispatch. rewrite Hm, Hno, Hwith. simpl.
    apply String.eqb_neq in Hfav. rewrite Hfav.
    replace (3 <=? len (Path (ReqURL r))) with true by lia.
    destruct (HasSuffix (Path (ReqURL r)) "/publish") eqn:Hs.
    { apply HasSuffix_true in Hs as [u Eu]. now apply Hpub in Eu. }
    rewrite Hidx, Hx. unfold_plumbing. header_lookup.
    unfold relativeLocation. simpl. rewrite Hp'.
    destruct (String.eqb (RawQuery (ReqURL r)) ""); simpl.
    + now rewrite append_nil_r.
    + reflexivity.
  - destruct (Path (ReqURL r)) as [|y name] eqn:Epath.
    { unfold len in Hlen. simpl in Hlen. lia. }
    exists y, name. split; [reflexivity |]. split.
    { intros ->. unfold len in Hlen. simpl in Hlen. lia. }
    assert (index (Path (ReqURL r')) (len (Path (ReqURL r')) - 1)
            = Some "/"%char) as Hlast.
    { rewrite Hp'. now rewrite index_last_append by discriminate. }
    assert (reWHIPWHEPNoID (Path (ReqURL r')) = None) as Hno'.
    { apply (reWHIPWHEPNoID_None_last _ _ Hlast). discriminate. }
    assert (reWHIPWHEPWithID (Path (ReqURL r')) = None) as Hwith'.
    { rewrite Hp'. now apply reWHIPWHEPWithID_add_slash. }
    assert (String.eqb (Path (ReqURL r')) "/favicon.ico" = false) as Hfav'.
    { apply String.eqb_neq. intros E'. rewrite E' in Hlast.
      vm_compute in Hlast. discriminate. }
    assert ((3 <=? len (Path (ReqURL r'))) = true) as Hlen'.
    { rewrite Hp', len_append. change (len "/") with 1. lia. }
    assert (HasSuffix (Path (ReqURL r')) "/publish" = false) as Hs'.
    { apply (HasSuffix_false_last _ _ _ "h"%char Hlast);
        [discriminate | reflexivity | discriminate]. }
    assert (slice (Path (ReqURL r')) 1 (len (Path (ReqURL r')) - 1)
            = Some name) as Hsl.
    { rewrite Hp'. rewrite append_cons. apply (slice_middle y name "/"). }
    dispatch. rewrite Hm', Hno', Hwith', Hfav', Hlen', Hs', Hlast, Hsl.
    reflexivity.
Qed.

End Redirect.

(** ** The contract of the authentication check *)

Section Contract.
Context {W : Type}.
Variable pkg : Package.
Variable s : webRTCHTTPServer W.

(** X15. [checkAuthOutsideSession], from any context: it asks the path
    manager once, with the request built from the context, and after
    that at most logs and pauses; it returns [true] exactly when the
    path manager reports no error, and then has left the response as it
    was; when it returns [false] it has set status 401 or 404 (unless
    the response had already started); it never writes to the body,
    never changes the request and never panics. *)
Theorem checkAuthOutsideSession_contract (path : string) (publish : bool)
        (c : Context W) :
  let req := accessRequestOf pkg (Request_ c) path publish in
  let res := getConfForPath (pathManager_ s) req (world c) in
  exists ok c',
    checkAuthOutsideSession pkg s path publish c = Returned ok c'
    /\ (ok = true <-> cr_err res.1 = None)
    /\ Request_ c' = Request_ c
    /\ body (Writer c') = body (Writer c)
    /\ written (Writer c') = written (Writer c)
    /\ (exists rest, events c' = (events c ++ EvGetConfForPath req :: rest)%list
                     /\ (rest = []
                         \/ exists format args,
                              rest = [EvLog logger.Info format args;
                                      EvSleep (webrtcPauseAfterAuthError pkg)])
                     /\ (ok = true -> rest = []))
    /\ (ok = true -> Writer c' = Writer c /\ world c' = res.2)
    /\ (ok = false -> written (Writer c) = false ->
        status (Writer c') = Some 401 \/ status (Writer c') = Some 404).
Proof.
  intros req res. subst res req. destruct c as [r wr w ev].
  unfold checkAuthOutsideSession. unfold_plumbing.
  destruct (BasicAuth pkg r) as [[user pass] has].
  destruct (getConfForPath _ _ _) as [res w1]. simpl.
  destruct (cr_err res) as [[message|text]|]; [destruct has |..]; simpl;
    eexists; eexists; (split; [reflexivity |]); simpl;
    split_and!; try done; try (intros _ ->; simpl; auto).
  all: eexists; split_and!;
    [rewrite <- ?app_assoc; reflexivity
    | first [left; reflexivity | right; eexists; eexists; reflexivity]
    | done].
Qed.

End Contract.

(** ** Starting the server *)

Section Start.
Context {W L Inner : Type}.
Variable pkg : Package.
Variable env : Startup W L Inner.

(** X16. [newWebRTCHTTPServer] and the TLS material.  With encryption on
    and no certificate, the error is returned before anything is
    opened: the state of the host is untouched.  With encryption off,
    key and certificate are blanked, so the outcome does not depend on
    what was passed.  Whenever a server is returned, it holds the given
    origin, path manager and parent, a certificate was present if
    encryption was asked for, and the listener has been opened with a
    router whose handler is this server's [onRequest].  Any other error
    is the one [NewWrappedServer] gave. *)
Theorem newWebRTCHTTPServer_certificate_and_router
        (address : string) (encryption : bool)
        (serverKey serverCert origin : string)
        (trusted : list string) (readTimeout : Z)
        (pm : pathManager W) (par : webRTCHTTPServerParent W) (l : L) :
  let start := newWebRTCHTTPServer pkg env address in
  let out :=
    start encryption serverKey serverCert origin trusted readTimeout pm par l in
  let opened router s :=
    NewWrappedServer env
      (restrictNetwork env "tcp" address).1
      (restrictNetwork env "tcp" address).2
      readTimeout
      (if encryption then serverCert else "")
      (if encryption then serverKey else "")
      router s l in
  (encryption = true -> serverCert = "" ->
   out = (inr (errOther "server cert is missing"), l))
  /\ (forall key' cert',
        start false serverKey serverCert origin trusted readTimeout pm par l
        = start false key' cert' origin trusted readTimeout pm par l)
  /\ (forall s inner l',
        out = (inl (s, inner), l') ->
        allowOrigin s = origin /\ pathManager_ s = pm /\ parent s = par
        /\ (encryption = true -> serverCert <> "")
        /\ exists router,
             noRoute router = onRequest pkg s
             /\ trustedProxies router = ToTrustedProxies env trusted
             /\ opened router s = (inl inner, l'))
  /\ (forall e l',
        out = (inr e, l') ->
        (encryption = true /\ serverCert = ""
         /\ e = errOther "server cert is missing" /\ l' = l)
        \/ (exists router s,
              noRoute router = onRequest pkg s
              /\ opened router s = (inr e, l'))).
Proof.
  intros start out opened. subst start out opened.
  unfold newWebRTCHTTPServer. split_and!.
  - intros -> ->. reflexivity.
  - reflexivity.
  - intros s inner l'.
    destruct encryption; simpl.
    + destruct (String.eqb serverCert "") eqn:Ec; [discriminate |].
      apply String.eqb_neq in Ec.
      destruct (restrictNetwork env "tcp" address) as [network addr]. simpl.
      destruct (NewWrappedServer _ _ _ _ _ _ _ _ _) as [[inner0|e0] l0] eqn:En;
        [| discriminate].
      intros [= <- <- <-]. split_and!; try done.
      eexists. split_and!; [| | exact En]; reflexivity.
    + destruct (restrictNetwork env "tcp" address) as [network addr]. simpl.
      destruct (NewWrappedServer _ _ _ _ _ _ _ _ _) as [[inner0|e0] l0] eqn:En;
        [| discriminate].
      intros [= <- <- <-]. split_and!; try done.
      eexists. split_and!; [| | exact En]; reflexivity.
  - intros e l'.
    destruct encryption; simpl.
    + destruct (String.eqb serverCert "") eqn:Ec.
      * apply String.eqb_eq in Ec. intros [= <- <-]. left. auto.
      * destruct (restrictNetwork env "tcp" address) as [network addr]. simpl.
        destruct (NewWrappedServer _ _ _ _ _ _ _ _ _) as [[inner0|e0] l0] eqn:En;
          [discriminate |].
        intros [= <- <-]. right.
        eexists. eexists. split; [| exact En]. reflexivity.
    + destruct (restrictNetwork env "tcp" address) as [network addr]. simpl.
      destruct (NewWrappedServer _ _ _ _ _ _ _ _ _) as [[inner0|e0] l0] eqn:En;
        [discriminate |].
      intros [= <- <-]. right.
      eexists. eexists. split; [| exact En]. reflexivity.
Qed.

End Start.

(** ** The further properties at work on the concrete server *)

Section FurtherWitnesses.
Import Fixture.

Lemma session_pattern_shortest_name_witness :
  sessionSplit "/a/whip/b/whep/c" "a" "whip" "b/whep/c"
  /\ (String.length "a" <= String.length "a/whip/b")%nat.
Proof.
  destruct (session_pattern_shortest_name
              "/a/whip/b/whep/c" "a" "whip" "b/whep/c") as [Hsplit Hmin].
  - vm_compute. reflexivity.
  - split; [exact Hsplit |].
    apply (Hmin "a/whip/b" "whep" "c").
    split_and!; try reflexivity; try discriminate; auto.
Defined.

Lemma patterns_refuse_line_feed_and_missing_slash_witness :
  reWHIPWHEPNoID "cam1/whip" = None
  /\ reWHIPWHEPWithID "cam1/whip/3b241101" = None.
Proof.
  split.
  - apply (patterns_refuse_line_feed_and_missing_slash "cam1/whip").
    right. vm_compute. reflexivity.
  - apply (patterns_refuse_line_feed_and_missing_slash "cam1/whip/3b241101").
    right. vm_compute. reflexivity.
Defined.

Lemma parent_calls_follow_the_method_witness :
  Method (postOffer "") = "POST".
Proof.
  apply (parent_calls_follow_the_method
           pkg server (postOffer "") []
           (EvNewSession (newSessionReqOf pkg (postOffer "") "cam1" true
                                          "v=0 offer"))).
  vm_compute. left. reflexivity.
Defined.

Lemma handler_panics_only_on_get_publish_witness :
  returned (serve pkg server (request "GET" "/publish" "" [] None) []) = false
  /\ (returned (serve pkg server getPublishPage []) = false -> False).
Proof.
  assert (forall req w,
             nr_err (@newSession World (parent server) req w).1 = None ->
             is_Some (nr_sx (@newSession World (parent server) req w).1))
    as Hsx.
  { intros req w. simpl.
    destruct (allowed (ns_pathName req) (ns_user req) (ns_pass req)); simpl;
      [discriminate | eauto]. }
  split.
  - apply (handler_panics_only_on_get_publish
             pkg server (request "GET" "/publish" "" [] None) [] Hsx).
    split; reflexivity.
  - intros H.
    apply (handler_panics_only_on_get_publish
             pkg server getPublishPage [] Hsx) in H.
    destruct H as [_ H]. vm_compute in H. discriminate H.
Defined.

Lemma unrouted_request_gets_only_cors_headers_witness :
  serve pkg server (request "POST" secretURL "" [] (Some "v=0 offer"))
        [sessionSecretText]
  = Returned tt
      (corsContext server (request "POST" secretURL "" [] (Some "v=0 offer"))
                   [sessionSecretText]).
Proof.
  apply (unrouted_request_gets_only_cors_headers pkg server).
  - intros [H _]. vm_compute in H. discriminate H.
  - right. left. split_and!.
    + vm_compute. reflexivity.
    + vm_compute. eauto.
    + vm_compute. discriminate.
    + vm_compute. discriminate.
Defined.

Lemma post_unread_body_or_refused_offer_witness :
  status (Writer (finalContext
            (serve pkg server
                   (request "POST" "/cam1/whip" ""
                            [("Content-Type", "application/sdp")]
                            (Some "v=0 offer")) [])))
  = Some 401.
Proof.
  set (r := request "POST" "/cam1/whip" ""
                    [("Content-Type", "application/sdp")] (Some "v=0 offer")).
  pose proof (post_unread_body_or_refused_offer
                pkg server r [] "cam1" "whip") as H.
  change (Body r) with (Some "v=0 offer") in H.
  cbv beta iota zeta in H.
  rewrite H.
  - vm_compute. reflexivity.
  - reflexivity.
  - vm_compute. reflexivity.
  - vm_compute. reflexivity.
  - vm_compute. eauto.
Defined.

Lemma endpoint_kind_decides_direction_witness :
  exists req rest,
    events (finalContext (serve pkg server (postOffer "") []))
    = EvNewSession req :: rest
    /\ ns_pathName req = "cam1" /\ ns_publish req = true.
Proof.
  destruct (endpoint_kind_decides_direction
              pkg server (postOffer "") [] "cam1" "whip") as [_ H].
  - vm_compute. reflexivity.
  - destruct (H eq_refl ltac:(vm_compute; reflexivity) "v=0 offer" eq_refl)
      as (req & rest & He & Hn & _ & _ & Hp & _).
    exists req, rest. split_and!; [exact He | exact Hn | now apply Hp].
Defined.

Lemma options_unknown_path_404_witness :
  status (Writer (finalContext
            (serve pkg server
                   (request "OPTIONS" "/cam2/whip" ""
                            [("Authorization", goodAuthorization)] None) [])))
  = Some 404
  /\ paused (events (finalContext
               (serve pkg server
                      (request "OPTIONS" "/cam2/whip" ""
                               [("Authorization", goodAuthorization)] None) [])))
     = 0.
Proof.
  rewrite (options_unknown_path_404
             pkg server
             (request "OPTIONS" "/cam2/whip" ""
                      [("Authorization", goodAuthorization)] None) []
             "cam2" "whip" "path is not configured").
  - split; vm_compute; reflexivity.
  - reflexivity.
  - vm_compute. reflexivity.
  - vm_compute. reflexivity.
  - vm_compute. reflexivity.
Defined.

Lemma redirect_leads_to_the_read_page_witness :
  let r' := request "GET" "/cam1/" "controls=0"
                    [("Authorization", goodAuthorization)] None in
  Header (Writer (finalContext (serve pkg server getBare []))) !! "Location"
  = Some ["/cam1/?controls=0"]
  /\ serve pkg server r' [] = onPage pkg server "cam1" false (corsContext server r' []).
Proof.
  intros r'.
  destruct (redirect_leads_to_the_read_page pkg server getBare r' [] [])
    as (_ & Hl & x & name & E & _ & H).
  - reflexivity.
  - vm_compute. reflexivity.
  - vm_compute. reflexivity.
  - vm_compute. discriminate.
  - discriminate.
  - intros t E. apply (f_equal (fun p => HasSuffix p "/publish")) in E.
    rewrite HasSuffix_append in E. vm_compute in E. discriminate.
  - intros t E. apply (f_equal (fun p => HasSuffix p "/")) in E.
    rewrite HasSuffix_append in E. vm_compute in E. discriminate.
  - reflexivity.
  - reflexivity.
  - split; [exact Hl |].
    change (Path (ReqURL getBare)) with (String "/" "cam1") in E.
    injection E as _ <-. exact H.
Defined.

End FurtherWitnesses.

(** * Session URLs and pages as their URLs read *)

(** ** When the router reads a URL the way it is written *)

Section Readings.

Lemma append_inj_length (a b a' b' : string) :
  a +:+ b = a' +:+ b' -> String.length a = String.length a' ->
  a = a' /\ b = b'.
Proof.
  revert a'. induction a as [|x a IH]; intros [|y a'] E Hlen;
    try discriminate Hlen.
  - rewrite !append_nil_l in E. auto.
  - rewrite !append_cons in E. injection E as -> E.
    injection Hlen as Hlen. destruct (IH a' E Hlen) as [-> ->]. auto.
Qed.




End Readings.

Section SessionURLs.
Context {W : Type}.
Variable pkg : Package.
Variable s : webRTCHTTPServer W.



End SessionURLs.

(** ** Pages whose URL is no session URL *)

Section PageURLs.
Context {W : Type}.
Variable pkg : Package.
Variable s : webRTCHTTPServer W.

(** The page URLs of a name of one segment are no session URLs. *)
Lemma page_url_is_no_session_url (name tail : string) :
  noSlash name = true ->
  tail = "/publish" \/ tail = "/" ->
  reWHIPWHEPWithID ("/" +:+ name +:+ tail) = None.
Proof.
  intros Hns Htail.
  destruct (reWHIPWHEPWithID _) as [[[n k] x]|] eqn:H; [exfalso | reflexivity].
  apply reWHIPWHEPWithID_Some in H as (E & Hn & _ & _ & _ & _).
  apply (inj (String.append "/")) in E.
  assert (forall p q, tail = p +:+ "/" +:+ q -> p = "") as Hone.
  { intros p q Ep. destruct p as [|y p]; [reflexivity | exfalso].
    destruct Htail as [-> | ->]; rewrite append_cons in Ep;
      injection Ep as _ Ep.
    - apply (f_equal noSlash) in Ep. rewrite noSlash_append in Ep.
      simpl in Ep. now rewrite andb_false_r in Ep.
    - destruct p; discriminate Ep. }
  destruct (Nat.lt_trichotomy (String.length n) (String.length name))
    as [Hlt | [Heq | Hgt]].
  - destruct (append_prefix_split _ _ _ _ E Hlt) as (p & Hp & -> & Ep).
    destruct p as [|y p]; [contradiction |].
    rewrite !append_cons, append_nil_l in Ep. injection Ep as <- _.
    rewrite noSlash_append in Hns. simpl in Hns.
    now rewrite andb_false_r in Hns.
  - apply append_inj_length in E as [_ E]; [| lia].
    rewrite append_cons, append_nil_l in E.
    assert (tail = "/" +:+ k +:+ "/" +:+ x) as E' by exact E.
    destruct Htail as [-> | ->]; rewrite append_cons, append_nil_l in E';
      injection E' as E'.
    + apply (f_equal noSlash) in E'. rewrite noSlash_append in E'.
      simpl in E'. now rewrite andb_false_r in E'.
    + destruct k; discriminate E'.
  - symmetry in E.
    destruct (append_prefix_split _ _ _ _ E Hgt) as (p & Hp & _ & Ep).
    apply Hone in Ep. contradiction.
Qed.

(** C10, amended. A GET of [/<path>/publish], or of [/<path>/] with a
    non-empty path, that is not a WHIP/WHEP session URL (it cannot be
    read as [/<name>/{whip|whep}/<rest>]; no URL of a one-segment path
    can) serves its page only through [onPage], which first runs
    [checkAuthOutsideSession], the check of the WHIP/WHEP OPTIONS
    handler.  When the path manager lets the request in, the page is
    served with status 200, [Content-Type: text/html] and
    [Cache-Control: max-age=3600]; on an authentication error the answer
    is 401, with the [WWW-Authenticate] challenge exactly when the
    request carried no credentials; on any other error it is 404.  In
    both failures nothing is written to the body. *)
Theorem page_served_only_after_authentication (r : Request) (w : W)
        (name : string) (publish : bool) :
  Method r = "GET" ->
  (publish = true /\ Path (ReqURL r) = "/" +:+ name +:+ "/publish")
  \/ (publish = false /\ name <> "" /\ Path (ReqURL r) = "/" +:+ name +:+ "/") ->
  reWHIPWHEPWithID (Path (ReqURL r)) = None ->
  let req := accessRequestOf pkg r name publish in
  let auth := getConfForPath (pathManager_ s) req w in
  let o := serve pkg s r w in
  let c := finalContext o in
  returned o = true
  /\ (exists rest, events c = EvGetConfForPath req :: rest)
  /\ match cr_err auth.1 with
     | None =>
         status (Writer c) = Some 200
         /\ Header (Writer c) !! "Content-Type" = Some ["text/html"]
         /\ Header (Writer c) !! "Cache-Control" = Some ["max-age=3600"]
         /\ body (Writer c)
            = (if publish then webrtcPublishIndex pkg
               else webrtcReadIndex pkg)
     | Some (errAuthentication _) =>
         status (Writer c) = Some 401
         /\ body (Writer c) = "" /\ written (Writer c) = false
         /\ Header (Writer c) !! "WWW-Authenticate"
            = (if (BasicAuth pkg r).2 then None else Some [basicRealm])
     | Some (errOther _) =>
         status (Writer c) = Some 404
         /\ body (Writer c) = "" /\ written (Writer c) = false
         /\ Header (Writer c) !! "WWW-Authenticate" = None
     end.
Proof.
  intros Hm Hshape Hwith.
  pose proof (onPage_routed pkg s r w name publish Hm Hshape) as H.
  cbv zeta in H. rewrite Hwith in H. exact H.
Qed.

End PageURLs.

(** ** These theorems at work, and the URLs they leave out *)

Section Revised.
Import Fixture.



Lemma page_served_only_after_authentication_witness :
  status (Writer (finalContext (serve pkg server getPublishPage []))) = Some 200
  /\ body (Writer (finalContext (serve pkg server getPublishPage [])))
     = webrtcPublishIndex pkg.
Proof.
  destruct (page_served_only_after_authentication
              pkg server getPublishPage [] "cam1" true)
    as (_ & _ & H).
  - reflexivity.
  - left. split; reflexivity.
  - vm_compute. reflexivity.
  - change (cr_err
              (getConfForPath (pathManager_ server)
                 (accessRequestOf pkg getPublishPage "cam1" true) []).1)
      with (@None error) in H.
    destruct H as (Hs & _ & _ & Hb). split; [exact Hs | exact Hb].
Defined.


(** C4 as stated fails: an OPTIONS request that carries
    [Access-Control-Request-Method] with an empty value is no preflight
    to the handler.  On an endpoint it is authenticated like any WHIP
    OPTIONS request and, without credentials, answered 401 with the
    challenge and without the allowed methods. *)
Lemma empty_request_method_header_is_no_preflight :
  let r := request "OPTIONS" "/cam1/whip" ""
                   [("Access-Control-Request-Method", "")] None in
  let c := finalContext (serve pkg server r []) in
  ReqHeader r !! "Access-Control-Request-Method" = Some [""]
  /\ status (Writer c) = Some 401
  /\ Header (Writer c) !! "Access-Control-Allow-Methods" = None
  /\ Header (Writer c) !! "WWW-Authenticate" = Some [basicRealm]
  /\ events c = [EvGetConfForPath (accessRequestOf pkg r "cam1" true)].
Proof. split_and!; vm_compute; reflexivity. Qed.


(** C10 as stated fails: [/a/whip/publish] is the publish page of the
    path [a/whip], and the path manager of the open server lets the
    request in, yet the router takes the URL for a session URL of path
    [a]: the check is not run, no page is written and no status is set.
    The same holds for the read page [/a/whip/b/] of the path
    [a/whip/b]. *)
Lemma page_url_taken_for_session_url :
  let r1 := request "GET" "/a/whip/publish" "" [] None in
  let c1 := finalContext (serve pkg Open.server r1 []) in
  let r2 := request "GET" "/a/whip/b/" "" [] None in
  let c2 := finalContext (serve pkg Open.server r2 []) in
  (Path (ReqURL r1) = "/" +:+ "a/whip" +:+ "/publish"
   /\ cr_err (getConfForPath (pathManager_ Open.server)
                (accessRequestOf pkg r1 "a/whip" true) []).1 = None
   /\ status (Writer c1) = None
   /\ body (Writer c1) = "" /\ written (Writer c1) = false
   /\ events c1 = [])
  /\ (Path (ReqURL r2) = "/" +:+ "a/whip/b" +:+ "/"
      /\ cr_err (getConfForPath (pathManager_ Open.server)
                   (accessRequestOf pkg r2 "a/whip/b" false) []).1 = None
      /\ status (Writer c2) = None
      /\ body (Writer c2) = "" /\ written (Writer c2) = false
      /\ events c2 = []).
Proof. split_and!; vm_compute; reflexivity. Qed.

End Revised.
